(** * The K8s resource lifecycle engine of phi/k8s/resource/base.py

    A shallow embedding of [K8sResource]: the create / read / update /
    delete protocol with its cache and skip flags, and the projection of
    a resource onto its K8s manifest.

    The remote cluster is an abstract type [World]; the kind-specific
    primitives ([_read], [_create], [_update], [_delete]) and the post
    hooks are Python methods a subclass may override, so a
    [Specialization] holds an optional implementation for each of them
    and the dispatch falls back on the body written in the base class.
    An operation returns its result, the new state and the list of
    events it produced, in program order: the methods the engine
    enters, and its console and logger lines. An implementation is a
    function of the client and the state, so it is taken to return; a
    primitive that raises is outside this model. *)

From Stdlib Require Import List Ascii String Bool ZArith Arith Lia.
Import ListNotations.
Open Scope string_scope.
Open Scope list_scope.
Set Warnings "-register-all".

(** ** Python values *)

(** The values the engine handles as [Any]: [None], booleans, integers,
    strings, lists, dicts (insertion ordered, string keys) and opaque
    objects such as the live object a read returns. *)
Inductive pyval : Type :=
| PNone
| PBool (b : bool)
| PInt (z : Z)
| PStr (s : string)
| PList (l : list pyval)
| PDict (d : list (string * pyval))
| PObj (id : nat).

(** [x is not None] *)
Definition is_not_none (v : pyval) : bool :=
  match v with
  | PNone => false
  | _ => true
  end.

(** Python truth value, as [if x:] tests it. *)
Definition truthy (v : pyval) : bool :=
  match v with
  | PNone => false
  | PBool b => b
  | PInt z => negb (Z.eqb z 0)
  | PStr s => negb (String.eqb s "")
  | PList l => match l with [] => false | _ => true end
  | PDict d => match d with [] => false | _ => true end
  | PObj _ => true
  end.

(** ** Ordered dicts *)

Module Dict.

Definition t := list (string * pyval).

Definition keys (d : t) : list string := map fst d.

(** [k in d] *)
Fixpoint mem (k : string) (d : t) : bool :=
  match d with
  | [] => false
  | (k', _) :: d' => if String.eqb k k' then true else mem k d'
  end.

(** [d[k]], [None] standing for the KeyError *)
Fixpoint get (k : string) (d : t) : option pyval :=
  match d with
  | [] => None
  | (k', v) :: d' => if String.eqb k k' then Some v else get k d'
  end.

(** [d[k] = v]: an existing key keeps its place and takes the new
    value, a new key goes last. *)
Fixpoint set (k : string) (v : pyval) (d : t) : t :=
  match d with
  | [] => [(k, v)]
  | (k', v') :: d' =>
      if String.eqb k k' then (k', v) :: d' else (k', v') :: set k v d'
  end.

End Dict.

(** [a == b] on values: [None] equals itself only; booleans and
    integers compare as numbers ([True == 1]); lists compare item by
    item; dicts are equal when they have as many keys and every key of
    the first is a key of the second with an equal value, whatever the
    order; an opaque object equals itself only. *)
Fixpoint py_eq (a b : pyval) {struct a} : bool :=
  match a, b with
  | PNone, PNone => true
  | PBool x, PBool y => Bool.eqb x y
  | PBool x, PInt y => Z.eqb (if x then 1 else 0) y
  | PInt x, PBool y => Z.eqb x (if y then 1 else 0)
  | PInt x, PInt y => Z.eqb x y
  | PStr x, PStr y => String.eqb x y
  | PList l1, PList l2 =>
      (fix go (l1 l2 : list pyval) {struct l1} : bool :=
         match l1, l2 with
         | [], [] => true
         | x :: xs, y :: ys => py_eq x y && go xs ys
         | _, _ => false
         end) l1 l2
  | PDict d1, PDict d2 =>
      Nat.eqb (List.length d1) (List.length d2)
      && (fix each (d : list (string * pyval)) : bool :=
            match d with
            | [] => true
            | (k, x) :: d' =>
                match Dict.get k d2 with
                | Some y => py_eq x y
                | None => false
                end && each d'
            end) d1
  | PObj x, PObj y => Nat.eqb x y
  | _, _ => false
  end.

(** ** Events *)

Inductive Method : Type :=
| M_read | M_create | M_update | M_delete
| M_post_create | M_post_update | M_post_delete
| M_save_output_file | M_delete_output_file.

(** The lines the engine prints or logs, without the resource name and
    type they interpolate. *)
Inductive Msg : Type :=
| Not_defined (m : Method)
| Skipping_read | Skipping_create | Skipping_update | Skipping_delete
| Already_exists | Does_not_exist
| Created | Updated | Deleted
| Running_post_create | Running_post_update | Running_post_delete
| Failed_to_create | Failed_to_update | Failed_to_delete.

Inductive Event : Type :=
| Call (m : Method)          (* a method of the resource is entered *)
| NewClient                  (* K8sApiClient() is constructed *)
| PrintInfo (msg : Msg)
| LogError (msg : Msg)
| LogDebug (msg : Msg).

Definition Method_eqb (a b : Method) : bool :=
  match a, b with
  | M_read, M_read | M_create, M_create | M_update, M_update
  | M_delete, M_delete | M_post_create, M_post_create
  | M_post_update, M_post_update | M_post_delete, M_post_delete
  | M_save_output_file, M_save_output_file
  | M_delete_output_file, M_delete_output_file => true
  | _, _ => false
  end.

Definition is_call (m : Method) (e : Event) : bool :=
  match e with
  | Call m' => Method_eqb m m'
  | _ => false
  end.

(** How many times method [m] is entered in a run. *)
Definition calls (m : Method) (evs : list Event) : nat :=
  List.length (filter (is_call m) evs).

(** ** The data model *)

(** Modelled from the spec: [ObjectMeta] (phi/k8s/resource/meta/v1) is
    the identity block of a resource: a required name, an optional
    namespace and a mapping of labels. *)
Record ObjectMeta : Type := mkObjectMeta {
  name : string;
  namespace : option string;
  labels : list (string * string)
}.

(** A declared attribute of a pydantic model: its Python name, its
    alias if it has one, its default ([None] for a required field) and
    its current value, already serialized. *)
Record FieldInfo : Type := mkField {
  f_name : string;
  f_alias : option string;
  f_default : option pyval;
  f_value : pyval
}.

Definition wire_name (f : FieldInfo) : string :=
  match f_alias f with
  | Some a => a
  | None => f_name f
  end.

(** Whether an attribute holds its default: [value == default]. A
    required attribute has no default to equal. *)
Definition at_default (f : FieldInfo) : bool :=
  match f_default f with
  | Some d => py_eq (f_value f) d
  | None => false
  end.

(** Modelled from the spec: [ResourceBase] (phi/resource/base.py), the
    parent class of [K8sResource], is not among the sources. Its control
    flags [skip_read], [skip_create], [skip_update], [skip_delete]
    (default false), [use_cache] (default true), [save_output] (default
    false) and its observed state [active_resource] (the last live
    object read, or [None]), [resource_created], [resource_updated],
    [resource_deleted] are those of the spec's data model. *)
Record ResourceBase : Type := mkResourceBase {
  skip_read : bool;
  skip_create : bool;
  skip_update : bool;
  skip_delete : bool;
  use_cache : bool;
  save_output : bool;
  active_resource : pyval;
  resource_created : pyval;
  resource_updated : pyval;
  resource_deleted : pyval
}.

Definition with_active_resource (v : pyval) (b : ResourceBase) : ResourceBase :=
  mkResourceBase (skip_read b) (skip_create b) (skip_update b) (skip_delete b)
    (use_cache b) (save_output b) v (resource_created b)
    (resource_updated b) (resource_deleted b).

Definition with_resource_created (v : pyval) (b : ResourceBase) : ResourceBase :=
  mkResourceBase (skip_read b) (skip_create b) (skip_update b) (skip_delete b)
    (use_cache b) (save_output b) (active_resource b) v
    (resource_updated b) (resource_deleted b).

Definition with_resource_updated (v : pyval) (b : ResourceBase) : ResourceBase :=
  mkResourceBase (skip_read b) (skip_create b) (skip_update b) (skip_delete b)
    (use_cache b) (save_output b) (active_resource b) (resource_created b)
    v (resource_deleted b).

Definition with_resource_deleted (v : pyval) (b : ResourceBase) : ResourceBase :=
  mkResourceBase (skip_read b) (skip_create b) (skip_update b) (skip_delete b)
    (use_cache b) (save_output b) (active_resource b) (resource_created b)
    (resource_updated b) v.

(** [fields_for_k8s_manifest_base], the attributes of the base class
    that go into a manifest. *)
Definition fields_for_k8s_manifest_base : list string :=
  [ "api_version";
    "apiVersion";
    "kind";
    "metadata" ].

(** Modelled from the spec: the dump of the identity block, a mapping
    with the name, the namespace when there is one and the labels when
    there are some. *)
Definition dump_ObjectMeta (m : ObjectMeta) : pyval :=
  PDict
    ([("name", PStr (name m))]
     ++ match namespace m with
        | Some ns => [("namespace", PStr ns)]
        | None => []
        end
     ++ match labels m with
        | [] => []
        | ls => [("labels", PDict (map (fun kv => (fst kv, PStr (snd kv))) ls))]
        end).

(** The attributes [ResourceBase] declares, with their defaults. *)
Definition ResourceBase_fields (b : ResourceBase) : list FieldInfo :=
  [ mkField "skip_read" None (Some (PBool false)) (PBool (skip_read b));
    mkField "skip_create" None (Some (PBool false)) (PBool (skip_create b));
    mkField "skip_update" None (Some (PBool false)) (PBool (skip_update b));
    mkField "skip_delete" None (Some (PBool false)) (PBool (skip_delete b));
    mkField "use_cache" None (Some (PBool true)) (PBool (use_cache b));
    mkField "save_output" None (Some (PBool false)) (PBool (save_output b));
    mkField "active_resource" None (Some PNone) (active_resource b);
    mkField "resource_created" None (Some PNone) (resource_created b);
    mkField "resource_updated" None (Some PNone) (resource_updated b);
    mkField "resource_deleted" None (Some PNone) (resource_deleted b) ].

(** The names of the attributes the engine itself writes or reads as
    control flags: those of [ResourceBase] and the client slot. *)
Definition lifecycle_attributes : list string :=
  [ "skip_read"; "skip_create"; "skip_update"; "skip_delete";
    "use_cache"; "save_output"; "active_resource";
    "resource_created"; "resource_updated"; "resource_deleted";
    "k8s_client" ].

Section Engine.

(** The remote cluster, and the handle of the transport client
    ([K8sApiClient]); [new_client] is what [K8sApiClient()] builds. *)
Context {World : Type} {Client : Type}.
Variable new_client : Client.

(** [K8sResource(ResourceBase, K8sObject)]: the inherited attributes and
    the ones the class declares. [api_version] and [kind] hold the
    value of their enumeration member, which is what their
    [field_serializer] dumps. *)
Record K8sResource : Type := mkK8sResource {
  base :> ResourceBase;
  api_version : string;
  kind : string;
  metadata : ObjectMeta;
  async_req : bool;
  pretty : bool;
  fields_for_k8s_manifest : list string;
  k8s_client : option Client;
  (* the attributes a subclass declares, in declaration order *)
  subclass_fields : list FieldInfo
}.

Definition with_base (f : ResourceBase -> ResourceBase) (r : K8sResource)
  : K8sResource :=
  mkK8sResource (f (base r)) (api_version r) (kind r) (metadata r)
    (async_req r) (pretty r) (fields_for_k8s_manifest r) (k8s_client r)
    (subclass_fields r).

Definition with_k8s_client (c : option Client) (r : K8sResource)
  : K8sResource :=
  mkK8sResource (base r) (api_version r) (kind r) (metadata r)
    (async_req r) (pretty r) (fields_for_k8s_manifest r) c
    (subclass_fields r).

(** What a method body can see and change: the resource itself and the
    cluster behind the client. *)
Record State : Type := mkState {
  self : K8sResource;
  cluster : World
}.

(** The methods a subclass may override; [None] is a method left to the
    base class. An implementation may change the resource and the
    cluster. *)
Record Specialization : Type := mkSpecialization {
  read_impl : option (Client -> State -> pyval * State);
  create_impl : option (Client -> State -> bool * State);
  update_impl : option (Client -> State -> pyval * State);
  delete_impl : option (Client -> State -> pyval * State);
  post_create_impl : option (Client -> State -> bool * State);
  post_update_impl : option (Client -> State -> bool * State);
  post_delete_impl : option (Client -> State -> bool * State)
}.

(** [save_output_file] and [delete_output_file] are methods of
    [ResourceBase]; the engine calls them and drops what they return. *)
Variable save_output_file_impl : State -> State.
Variable delete_output_file_impl : State -> State.

Variable spec : Specialization.

(** *** The monad of method bodies *)

Definition M (A : Type) : Type := State -> A * State * list Event.

Definition ret {A} (a : A) : M A := fun st => (a, st, []).

Definition bind {A B} (m : M A) (k : A -> M B) : M B :=
  fun st =>
    let '(a, st1, e1) := m st in
    let '(b, st2, e2) := k a st1 in
    (b, st2, e1 ++ e2).

Definition emit (e : Event) : M unit := fun st => (tt, st, [e]).

Definition get_self : M K8sResource := fun st => (self st, st, []).

Definition modify_self (f : K8sResource -> K8sResource) : M unit :=
  fun st => (tt, mkState (f (self st)) (cluster st), []).

(** Entering method [m] whose body is [body]. *)
Definition enter {A} (m : Method) (body : State -> A * State) : M A :=
  fun st => let '(a, st') := body st in (a, st', [Call m]).

Notation "x <- m ;; k" := (bind m (fun x => k))
  (at level 61, m at next level, right associativity).
Notation "m ;;; k" := (bind m (fun _ => k))
  (at level 61, right associativity).

Definition result {A} (x : A * State * list Event) : A := fst (fst x).
Definition final {A} (x : A * State * list Event) : State := snd (fst x).
Definition events {A} (x : A * State * list Event) : list Event := snd x.

(** *** The methods of the class *)

(** [get_k8s_client]: the client of the resource, built on first use. *)
Definition get_k8s_client : M Client :=
  r <- get_self ;;
  match k8s_client r with
  | Some c => ret c
  | None =>
      emit NewClient ;;;
      modify_self (with_k8s_client (Some new_client)) ;;;
      ret new_client
  end.

(** [k8s_client or self.get_k8s_client()]: a client object is truthy,
    [None] is not. *)
Definition client_or_own (k8s_client : option Client) : M Client :=
  match k8s_client with
  | Some c => ret c
  | None => get_k8s_client
  end.

(** [_read]: the base body logs an error and returns [True]. *)
Definition _read (c : Client) : M pyval :=
  match read_impl spec with
  | Some f => enter M_read (f c)
  | None =>
      emit (Call M_read) ;;;
      emit (LogError (Not_defined M_read)) ;;;
      ret (PBool true)
  end.

Definition read (k8s_client : option Client) : M pyval :=
  r <- get_self ;;
  (* Step 1: Use cached value if available *)
  if use_cache r && is_not_none (active_resource r) then
    ret (active_resource r)
  (* Step 2: Skip resource creation if skip_read = True *)
  else if skip_read r then
    emit (PrintInfo Skipping_read) ;;;
    ret (PBool true)
  (* Step 3: Read resource *)
  else
    client <- client_or_own k8s_client ;;
    _read client.

Definition is_active (k8s_client : Client) : M bool :=
  v <- _read k8s_client ;;
  modify_self (with_base (with_active_resource v)) ;;;
  r <- get_self ;;
  ret (is_not_none (active_resource r)).

(** [_create]: the base body logs an error and returns [True]. *)
Definition _create (c : Client) : M bool :=
  match create_impl spec with
  | Some f => enter M_create (f c)
  | None =>
      emit (Call M_create) ;;;
      emit (LogError (Not_defined M_create)) ;;;
      ret true
  end.

Definition post_create (c : Client) : M bool :=
  match post_create_impl spec with
  | Some f => enter M_post_create (f c)
  | None => emit (Call M_post_create) ;;; ret true
  end.

Definition save_output_file : M unit :=
  enter M_save_output_file (fun st => (tt, save_output_file_impl st)).

Definition delete_output_file : M unit :=
  enter M_delete_output_file (fun st => (tt, delete_output_file_impl st)).

(** Steps 3 and 4 of [create]: the else branch of the cache test and
    what follows it. *)
Definition create_resource (client : Client) : M pyval :=
  (* Step 3: Create the resource *)
  b <- _create client ;;
  modify_self (with_base (with_resource_created (PBool b))) ;;;
  r <- get_self ;;
  (if truthy (resource_created r) then emit (PrintInfo Created) else ret tt) ;;;
  (* Step 4: Run post create steps *)
  r <- get_self ;;
  if truthy (resource_created r) then
    (if save_output r then save_output_file else ret tt) ;;;
    emit (LogDebug Running_post_create) ;;;
    b' <- post_create client ;;
    ret (PBool b')
  else
    emit (LogError Failed_to_create) ;;;
    r <- get_self ;;
    ret (resource_created r).

(** The test of step 2, [self.use_cache and self.is_active(client)]:
    [and] does not evaluate its right operand when the left one is
    false. *)
Definition use_cache_and_is_active (client : Client) : M bool :=
  r <- get_self ;;
  if use_cache r then is_active client else ret false.

Definition create (k8s_client : option Client) : M pyval :=
  r <- get_self ;;
  (* Step 1: Skip resource creation if skip_create = True *)
  if skip_create r then
    emit (PrintInfo Skipping_create) ;;;
    ret (PBool true)
  else
    (* Step 2: Check if resource is active and use_cache = True *)
    client <- client_or_own k8s_client ;;
    cached <- use_cache_and_is_active client ;;
    if cached then
      modify_self (with_base (with_resource_created (PBool true))) ;;;
      emit (PrintInfo Already_exists) ;;;
      ret (PBool true)
    else
      create_resource client.

(** [_update]: the base body logs an error and returns [True]. *)
Definition _update (c : Client) : M pyval :=
  match update_impl spec with
  | Some f => enter M_update (f c)
  | None =>
      emit (Call M_update) ;;;
      emit (LogError (Not_defined M_update)) ;;;
      ret (PBool true)
  end.

Definition post_update (c : Client) : M bool :=
  match post_update_impl spec with
  | Some f => enter M_post_update (f c)
  | None => emit (Call M_post_update) ;;; ret true
  end.

Definition update (k8s_client : option Client) : M pyval :=
  r <- get_self ;;
  (* Step 1: Skip resource update if skip_update = True *)
  if skip_update r then
    emit (PrintInfo Skipping_update) ;;;
    ret (PBool true)
  else
    (* Step 2: Update the resource *)
    client <- client_or_own k8s_client ;;
    active <- is_active client ;;
    if active then
      v <- _update client ;;
      modify_self (with_base (with_resource_updated v)) ;;;
      (* Step 3: Run post update steps *)
      r <- get_self ;;
      if truthy (resource_updated r) then
        emit (PrintInfo Updated) ;;;
        (if save_output r then save_output_file else ret tt) ;;;
        emit (LogDebug Running_post_update) ;;;
        b <- post_update client ;;
        ret (PBool b)
      else
        emit (LogError Failed_to_update) ;;;
        r <- get_self ;;
        ret (resource_updated r)
    else
      emit (PrintInfo Does_not_exist) ;;;
      ret (PBool true).

(** [_delete]: the base body logs an error and returns [True]. *)
Definition _delete (c : Client) : M pyval :=
  match delete_impl spec with
  | Some f => enter M_delete (f c)
  | None =>
      emit (Call M_delete) ;;;
      emit (LogError (Not_defined M_delete)) ;;;
      ret (PBool true)
  end.

Definition post_delete (c : Client) : M bool :=
  match post_delete_impl spec with
  | Some f => enter M_post_delete (f c)
  | None => emit (Call M_post_delete) ;;; ret true
  end.

Definition delete (k8s_client : option Client) : M pyval :=
  r <- get_self ;;
  (* Step 1: Skip resource deletion if skip_delete = True *)
  if skip_delete r then
    emit (PrintInfo Skipping_delete) ;;;
    ret (PBool true)
  else
    (* Step 2: Delete the resource *)
    client <- client_or_own k8s_client ;;
    active <- is_active client ;;
    if active then
      v <- _delete client ;;
      modify_self (with_base (with_resource_deleted v)) ;;;
      (* Step 3: Run post delete steps *)
      r <- get_self ;;
      if truthy (resource_deleted r) then
        emit (PrintInfo Deleted) ;;;
        (if save_output r then delete_output_file else ret tt) ;;;
        emit (LogDebug Running_post_delete) ;;;
        b <- post_delete client ;;
        ret (PBool b)
      else
        emit (LogError Failed_to_delete) ;;;
        r <- get_self ;;
        ret (resource_deleted r)
    else
      emit (PrintInfo Does_not_exist) ;;;
      ret (PBool true).

(** *** The manifest *)

(** What [model_dump] makes of the client object, when there is one. *)
Variable dump_K8sApiClient : Client -> pyval.

(** The attributes of the model, parents first: [api_version] is
    declared with the alias [apiVersion] and, as [kind] and [metadata],
    without default; the two manifest lists hold their class value. *)
Definition model_fields (r : K8sResource) : list FieldInfo :=
  ResourceBase_fields (base r)
  ++ [ mkField "api_version" (Some "apiVersion") None (PStr (api_version r));
       mkField "kind" None None (PStr (kind r));
       mkField "metadata" None None (dump_ObjectMeta (metadata r));
       mkField "async_req" None (Some (PBool false)) (PBool (async_req r));
       mkField "pretty" None (Some (PBool true)) (PBool (pretty r));
       mkField "fields_for_k8s_manifest_base" None
         (Some (PList (map PStr fields_for_k8s_manifest_base)))
         (PList (map PStr fields_for_k8s_manifest_base));
       mkField "fields_for_k8s_manifest" None
         (Some (PList (map PStr (fields_for_k8s_manifest r))))
         (PList (map PStr (fields_for_k8s_manifest r)));
       mkField "k8s_client" None (Some PNone)
         (match k8s_client r with
          | Some c => dump_K8sApiClient c
          | None => PNone
          end) ]
  ++ subclass_fields r.

(** Modelled from the spec: [model_dump(exclude_defaults=True,
    by_alias=True)] of pydantic, which is not among the sources: the
    attributes that differ from their default, in declaration order,
    each under its alias when it has one. *)
Definition model_dump (r : K8sResource) : Dict.t :=
  fold_left
    (fun d f => if at_default f then d else Dict.set (wire_name f) (f_value f) d)
    (model_fields r) [].

(** One turn of the loop of [get_k8s_manifest_dict]. *)
Definition copy_attribute (all_attributes : Dict.t) (k8s_manifest : Dict.t)
  (attr_name : string) : Dict.t :=
  if Dict.mem attr_name all_attributes then
    match Dict.get attr_name all_attributes with
    | Some v => Dict.set attr_name v k8s_manifest
    | None => k8s_manifest
    end
  else k8s_manifest.

Definition get_k8s_manifest_dict (r : K8sResource) : Dict.t :=
  let all_attributes := model_dump r in
  fold_left (copy_attribute all_attributes)
    (fields_for_k8s_manifest_base ++ fields_for_k8s_manifest r) [].

(** *** The three mutating operations, side by side *)

Inductive Operation : Type := Op_create | Op_update | Op_delete.

Definition run (op : Operation) : option Client -> M pyval :=
  match op with
  | Op_create => create
  | Op_update => update
  | Op_delete => delete
  end.

Definition skip_flag (op : Operation) (r : K8sResource) : bool :=
  match op with
  | Op_create => skip_create r
  | Op_update => skip_update r
  | Op_delete => skip_delete r
  end.

(** The kind-specific primitive of an operation, with the result of
    [_create] seen as a value. *)
Definition primitive (op : Operation) (c : Client) : M pyval :=
  match op with
  | Op_create => b <- _create c ;; ret (PBool b)
  | Op_update => _update c
  | Op_delete => _delete c
  end.

Definition primitive_name (op : Operation) : Method :=
  match op with
  | Op_create => M_create
  | Op_update => M_update
  | Op_delete => M_delete
  end.

Definition post_hook_name (op : Operation) : Method :=
  match op with
  | Op_create => M_post_create
  | Op_update => M_post_update
  | Op_delete => M_post_delete
  end.

Definition primitive_missing (op : Operation) : Prop :=
  match op with
  | Op_create => create_impl spec = None
  | Op_update => update_impl spec = None
  | Op_delete => delete_impl spec = None
  end.

Definition post_hook_missing (op : Operation) : Prop :=
  match op with
  | Op_create => post_create_impl spec = None
  | Op_update => post_update_impl spec = None
  | Op_delete => post_delete_impl spec = None
  end.

Definition outcome_flag (op : Operation) (r : K8sResource) : pyval :=
  match op with
  | Op_create => resource_created r
  | Op_update => resource_updated r
  | Op_delete => resource_deleted r
  end.

Definition skipping_line (op : Operation) : Msg :=
  match op with
  | Op_create => Skipping_create
  | Op_update => Skipping_update
  | Op_delete => Skipping_delete
  end.

Definition failure_line (op : Operation) : Msg :=
  match op with
  | Op_create => Failed_to_create
  | Op_update => Failed_to_update
  | Op_delete => Failed_to_delete
  end.

(** The existence probe as an operation issues it: the client is
    resolved, then [_read] is called on it. *)
Definition probe (k8s_client : option Client) : M pyval :=
  client <- client_or_own k8s_client ;;
  _read client.

(** The run of [create] up to the end of the test of step 2. *)
Definition create_guard (k8s_client : option Client) : M (Client * bool) :=
  client <- client_or_own k8s_client ;;
  cached <- use_cache_and_is_active client ;;
  ret (client, cached).

(** A run contains a call of [_read] that no call of [_create]
    precedes. *)
Definition probes_before_create (evs : list Event) : Prop :=
  exists pre post,
    evs = pre ++ Call M_read :: post /\ calls M_create pre = 0.

(** *** Helpers to state further properties *)

Definition success_line (op : Operation) : Msg :=
  match op with
  | Op_create => Created
  | Op_update => Updated
  | Op_delete => Deleted
  end.

(** The method of [ResourceBase] an operation calls on the manifest
    file when [save_output] is set. *)
Definition output_file_method (op : Operation) : Method :=
  match op with
  | Op_create => M_save_output_file
  | Op_update => M_save_output_file
  | Op_delete => M_delete_output_file
  end.

(** The methods an operation can enter. *)
Definition methods_of (op : Operation) : list Method :=
  [M_read; primitive_name op; output_file_method op; post_hook_name op].

(** The run of [update] and of [delete] up to the end of the test of
    step 2, [self.is_active(client)]. *)
Definition probe_guard (k8s_client : option Client) : M (Client * bool) :=
  client <- client_or_own k8s_client ;;
  active <- is_active client ;;
  ret (client, active).

(** What an operation does once its primitive has returned [v]: the
    assignment of [v] to [resource_created] ([resource_updated],
    [resource_deleted]) and the steps that follow it. *)
Definition after_primitive (op : Operation) (client : Client) (v : pyval)
  : M pyval :=
  match op with
  | Op_create =>
      modify_self (with_base (with_resource_created v)) ;;;
      r <- get_self ;;
      (if truthy (resource_created r) then emit (PrintInfo Created)
       else ret tt) ;;;
      (* Step 4: Run post create steps *)
      r <- get_self ;;
      if truthy (resource_created r) then
        (if save_output r then save_output_file else ret tt) ;;;
        emit (LogDebug Running_post_create) ;;;
        b <- post_create client ;;
        ret (PBool b)
      else
        emit (LogError Failed_to_create) ;;;
        r <- get_self ;;
        ret (resource_created r)
  | Op_update =>
      modify_self (with_base (with_resource_updated v)) ;;;
      (* Step 3: Run post update steps *)
      r <- get_self ;;
      if truthy (resource_updated r) then
        emit (PrintInfo Updated) ;;;
        (if save_output r then save_output_file else ret tt) ;;;
        emit (LogDebug Running_post_update) ;;;
        b <- post_update client ;;
        ret (PBool b)
      else
        emit (LogError Failed_to_update) ;;;
        r <- get_self ;;
        ret (resource_updated r)
  | Op_delete =>
      modify_self (with_base (with_resource_deleted v)) ;;;
      (* Step 3: Run post delete steps *)
      r <- get_self ;;
      if truthy (resource_deleted r) then
        emit (PrintInfo Deleted) ;;;
        (if save_output r then delete_output_file else ret tt) ;;;
        emit (LogDebug Running_post_delete) ;;;
        b <- post_delete client ;;
        ret (PBool b)
      else
        emit (LogError Failed_to_delete) ;;;
        r <- get_self ;;
        ret (resource_deleted r)
  end.

(** The post hook a kind supplies for an operation, if any. *)
Definition post_hook_impl (op : Operation)
  : option (Client -> State -> bool * State) :=
  match op with
  | Op_create => post_create_impl spec
  | Op_update => post_update_impl spec
  | Op_delete => post_delete_impl spec
  end.

(** *** What the engine leaves alone *)

(** Two resources with the same declared attributes. *)
Definition same_declared (r r' : K8sResource) : Prop :=
  api_version r = api_version r'
  /\ kind r = kind r'
  /\ metadata r = metadata r'
  /\ async_req r = async_req r'
  /\ pretty r = pretty r'
  /\ fields_for_k8s_manifest r = fields_for_k8s_manifest r'
  /\ subclass_fields r = subclass_fields r'.

(** Two resources with the same control flags. *)
Definition same_flags (b b' : ResourceBase) : Prop :=
  skip_read b = skip_read b'
  /\ skip_create b = skip_create b'
  /\ skip_update b = skip_update b'
  /\ skip_delete b = skip_delete b'
  /\ use_cache b = use_cache b'
  /\ save_output b = save_output b'.

(** Two resources that differ at most in the observed state
    ([active_resource], [resource_created], [resource_updated],
    [resource_deleted]) and in the client slot. *)
Definition same_configuration (r r' : K8sResource) : Prop :=
  same_declared r r' /\ same_flags r r'.

(** A method body that leaves the configuration of the resource as it
    finds it. *)
Definition keeps_configuration {A} (m : M A) : Prop :=
  forall st, same_configuration (self st) (self (final (m st))).

Definition impl_keeps_configuration {A}
  (o : option (Client -> State -> A * State)) : Prop :=
  forall f, o = Some f ->
  forall cl s, same_configuration (self s) (self (snd (f cl s))).

(** A kind whose methods, and the output-file methods it runs with,
    leave the configuration of the resource alone. *)
Definition kind_keeps_configuration : Prop :=
  impl_keeps_configuration (read_impl spec)
  /\ impl_keeps_configuration (create_impl spec)
  /\ impl_keeps_configuration (update_impl spec)
  /\ impl_keeps_configuration (delete_impl spec)
  /\ impl_keeps_configuration (post_create_impl spec)
  /\ impl_keeps_configuration (post_update_impl spec)
  /\ impl_keeps_configuration (post_delete_impl spec)
  /\ (forall s, same_configuration (self s) (self (save_output_file_impl s)))
  /\ (forall s, same_configuration (self s) (self (delete_output_file_impl s))).

(** *** Names *)

(** [a or b] on an optional string [a]: [None] and the empty string
    are falsy. *)
Definition or_else (a : option string) (b : string) : string :=
  match a with
  | Some s => if String.eqb s "" then b else s
  | None => b
  end.

(** [get_resource_name]:
    [self.name or self.metadata.name or self.__class__.__name__].
    [self.name] is an optional attribute of [ResourceBase] and the
    class name belongs to the subclass: both are arguments here. *)
Definition get_resource_name (self_name : option string) (class_name : string)
  (r : K8sResource) : string :=
  or_else self_name (or_else (Some (name (metadata r))) class_name).

(** The constant of phi/k8s/constants.py. *)
Variable DEFAULT_K8S_NAMESPACE : string.

(** [get_namespace]: the metadata object is truthy, its namespace is
    when it is a non-empty string. *)
Definition get_namespace (r : K8sResource) : string :=
  match namespace (metadata r) with
  | Some ns => if String.eqb ns "" then DEFAULT_K8S_NAMESPACE else ns
  | None => DEFAULT_K8S_NAMESPACE
  end.

(** [f"{k}={v}"] *)
Definition label_item (kv : string * string) : string :=
  fst kv ++ "=" ++ snd kv.

(** [get_label_selector]: the labels joined by commas, the empty string
    when there are none. *)
Definition get_label_selector (r : K8sResource) : string :=
  match labels (metadata r) with
  | [] => ""
  | ls => String.concat "," (map label_item ls)
  end.

End Engine.

(** Whether character [c] occurs in [s]. *)
Fixpoint contains_char (c : Ascii.ascii) (s : string) : bool :=
  match s with
  | EmptyString => false
  | String a s' => Ascii.eqb a c || contains_char c s'
  end.

(** Labels whose keys hold neither [,] nor [=] and whose values hold no
    [,]. *)
Definition plain_labels (ls : list (string * string)) : bool :=
  forallb
    (fun kv =>
       negb (contains_char ","%char (fst kv))
       && negb (contains_char "="%char (fst kv))
       && negb (contains_char ","%char (snd kv)))
    ls.

Arguments K8sResource : clear implicits.
Arguments State : clear implicits.
Arguments Specialization : clear implicits.
Arguments M : clear implicits.

(** ** A small cluster to run the engine on *)

Module Demo.

(** The cluster holds the live object of the resource, if any; the
    client is a bare handle. *)
Definition World : Type := option nat.
Definition Client : Type := unit.

Definition resource (skip use_cache_ : bool) : K8sResource Client :=
  mkK8sResource
    (mkResourceBase false skip skip skip use_cache_ false PNone PNone PNone PNone)
    "apps/v1" "Deployment" (mkObjectMeta "n" None [])
    false true ["replicas"; "paused"] None
    [ mkField "replicas" None (Some (PInt 1)) (PInt 3);
      mkField "paused" None (Some (PBool false)) (PBool false) ].

Definition state (skip use_cache_ : bool) (w : World) : State World Client :=
  mkState (resource skip use_cache_) w.

(** A kind whose primitives talk to the cluster: read returns the live
    object, create submits one unless one is there, update and delete
    need one. *)
Definition live_spec : Specialization World Client :=
  mkSpecialization
    (Some (fun _ st =>
             match cluster st with
             | Some o => (PObj o, st)
             | None => (PNone, st)
             end))
    (Some (fun _ st =>
             match cluster st with
             | Some _ => (false, st)
             | None => (true, mkState (self st) (Some 7))
             end))
    (Some (fun _ st => (PBool true, st)))
    (Some (fun _ st => (PBool true, mkState (self st) None)))
    None None None.

(** The base class alone: nothing overridden. *)
Definition base_spec : Specialization World Client :=
  mkSpecialization None None None None None None None.

(** A resource that holds the live object of an earlier read. *)
Definition cached_state : State World Client :=
  mkState (with_base (with_active_resource (PObj 3)) (resource false true))
    (Some 3).

Definition save (st : State World Client) : State World Client := st.

(** The same kind with a post-create hook that fails. *)
Definition failing_hook_spec : Specialization World Client :=
  mkSpecialization
    (read_impl live_spec) (create_impl live_spec)
    (update_impl live_spec) (delete_impl live_spec)
    (Some (fun _ st => (false, st))) None None.

(** A kind whose update and delete primitives return [None]. *)
Definition silent_spec : Specialization World Client :=
  mkSpecialization
    (read_impl live_spec) (create_impl live_spec)
    (Some (fun _ st => (PNone, st)))
    (Some (fun _ st => (PNone, st)))
    None None None.


(** A resource whose reads are switched off. *)
Definition unread_state : State World Client :=
  mkState
    (mkK8sResource
       (mkResourceBase true false false false true false PNone PNone PNone PNone)
       "v1" "Namespace" (mkObjectMeta "ns" None [])
       false true [] None [])
    (Some 3).

Definition labelled (ls : list (string * string)) : K8sResource Client :=
  mkK8sResource
    (mkResourceBase false false false false true false PNone PNone PNone PNone)
    "v1" "Service" (mkObjectMeta "svc" (Some "") ls)
    false true ["spec"] None [].

Definition dump_client (c : Client) : pyval := PDict [].

End Demo.

(** * Properties of the lifecycle engine *)

(** Unfolding of the monad and of the dispatch. *)
Ltac unfold_engine :=
  unfold run, create, update, delete,
    read, probe, create_guard,
    create_resource, use_cache_and_is_active, is_active,
    primitive, _read, _create, _update, _delete,
    post_create, post_update, post_delete,
    save_output_file, delete_output_file,
    client_or_own, get_k8s_client,
    bind, ret, emit, enter, get_self, modify_self,
    result, final, events in *.

(** One case split on what the goal or a hypothesis scrutinises. *)
Ltac split_run :=
  match goal with
  | H : context [match ?x with _ => _ end] |- _ => destruct x eqn:?
  | |- context [match ?x with _ => _ end] => destruct x eqn:?
  | H : context [if ?x then _ else _] |- _ => destruct x eqn:?
  | |- context [if ?x then _ else _] => destruct x eqn:?
  end.

Ltac open_pairs :=
  repeat match goal with
         | H : (_, _) = (_, _) |- _ => inversion H; subst; clear H
         end.

Ltac run_engine :=
  unfold_engine; cbn in *; open_pairs;
  repeat (split_run; cbn in *; subst; open_pairs;
          try discriminate; try congruence).

Ltac unfold_after_primitive := unfold after_primitive.

Section EngineFacts.

Context {World : Type} {Client : Type}.
Variable new_client : Client.
Variable save_output_file_impl : State World Client -> State World Client.
Variable delete_output_file_impl : State World Client -> State World Client.
Variable spec : Specialization World Client.

Local Abbreviation read := (read new_client spec).
Local Abbreviation probe := (probe new_client spec).
Local Abbreviation create := (create new_client save_output_file_impl spec).
Local Abbreviation update := (update new_client save_output_file_impl spec).
Local Abbreviation delete := (delete new_client delete_output_file_impl spec).
Local Abbreviation run :=
  (run new_client save_output_file_impl delete_output_file_impl spec).
Local Abbreviation create_guard := (create_guard new_client spec).
Local Abbreviation create_resource := (create_resource save_output_file_impl spec).
Local Abbreviation client_or_own := (client_or_own new_client).
Local Abbreviation after_primitive :=
  (after_primitive save_output_file_impl delete_output_file_impl spec).

(** C5. An operation whose skip flag is set prints its "Skipping" line
    and returns [True]: the resource and the cluster are left as they
    were and no method of the resource is entered, whatever the cluster
    holds. *)
Theorem skip_flag_short_circuit (op : Operation) (c : option Client)
  (st : State World Client) :
  skip_flag op (self st) = true ->
  run op c st = (PBool true, st, [PrintInfo (skipping_line op)])
  /\ forall m, calls m (events (run op c st)) = 0.
Proof.
  intros Hskip.
  assert (E : run op c st = (PBool true, st, [PrintInfo (skipping_line op)])).
  { destruct op; cbn in Hskip; unfold_engine; cbn; rewrite Hskip; reflexivity. }
  split; [exact E | intros m; rewrite E; reflexivity].
Qed.

(** C4. With its skip flag unset, [update] (and likewise [delete]) on a
    resource whose probe returns [None] prints "does not exist" and
    returns [True], and the update (delete) primitive is not entered. *)
Theorem noop_on_absence (op : Operation) (c : option Client)
  (st : State World Client) :
  op <> Op_create ->
  skip_flag op (self st) = false ->
  result (probe c st) = PNone ->
  result (run op c st) = PBool true
  /\ events (run op c st) = events (probe c st) ++ [PrintInfo Does_not_exist]
  /\ calls (primitive_name op) (events (run op c st)) = 0.
Proof.
  intros Hop Hskip Habsent.
  destruct op; [congruence | |]; cbn in Hskip;
    unfold_engine; cbn in *; rewrite Hskip;
    run_engine; auto.
Qed.

(** Whatever the path, one run of [create] enters [_create] at most
    once. *)
Lemma create_submits_at_most_once (c : option Client) (st : State World Client) :
  calls M_create (events (create c st)) <= 1.
Proof.
  run_engine; auto.
Qed.

(** C1. With [skip_create] unset and [use_cache] set, if the probe
    reports the resource active then [create] sets [resource_created]
    to [True] and returns [True] without entering [_create]. Hence,
    for two calls in a row, when the second one finds the flags so and
    the probe active, both calls together enter [_create] at most once
    and [resource_created] is [True] after it. *)
Theorem create_idempotent_when_active :
  (forall (c : option Client) (st : State World Client),
      skip_create (self st) = false ->
      use_cache (self st) = true ->
      is_not_none (result (probe c st)) = true ->
      result (create c st) = PBool true
      /\ resource_created (self (final (create c st))) = PBool true
      /\ calls M_create (events (create c st)) = 0)
  /\ (forall (c c' : option Client) (st : State World Client),
        let first := create c st in
        let second := create c' (final first) in
        skip_create (self (final first)) = false ->
        use_cache (self (final first)) = true ->
        is_not_none (result (probe c' (final first))) = true ->
        result second = PBool true
        /\ resource_created (self (final second)) = PBool true
        /\ calls M_create (events first ++ events second) <= 1).
Proof.
  assert (A : forall (c : option Client) (st : State World Client),
      skip_create (self st) = false ->
      use_cache (self st) = true ->
      is_not_none (result (probe c st)) = true ->
      result (create c st) = PBool true
      /\ resource_created (self (final (create c st))) = PBool true
      /\ calls M_create (events (create c st)) = 0).
  { intros c st Hskip Hcache Hactive.
    unfold_engine; cbn in *; rewrite Hskip.
    destruct c as [cl|]; cbn in *.
    - rewrite Hcache. run_engine; auto.
    - destruct (k8s_client (self st)) eqn:Hk; cbn in *; rewrite Hcache;
        run_engine; auto. }
  split; [exact A|].
  intros c c' st first second; subst first second; cbv zeta.
  intros Hskip Hcache Hactive.
  destruct (A c' _ Hskip Hcache Hactive) as (R & F & N).
  repeat split; try assumption.
  pose proof (create_submits_at_most_once c st) as L.
  unfold calls in *. rewrite filter_app, length_app, N. lia.
Qed.

(** C6. With [skip_create] unset, when the test of step 2 is false, so
    that [_create] is called, and [_create] returns [False]: [create]
    returns [False], [resource_created] holds [False], the failure is
    logged and [post_create] is not entered. *)
Theorem create_failure_reported (c : option Client) (client : Client)
  (st : State World Client) :
  skip_create (self st) = false ->
  result (create_guard c st) = (client, false) ->
  result (_create spec client (final (create_guard c st))) = false ->
  result (create c st) = PBool false
  /\ resource_created (self (final (create c st))) = PBool false
  /\ calls M_post_create (events (create c st)) = 0
  /\ In (LogError Failed_to_create) (events (create c st)).
Proof.
  clear delete_output_file_impl.
  intros Hskip Hguard Hfail.
  unfold_engine; cbn in *; rewrite Hskip.
  run_engine; repeat split; try congruence;
    try (rewrite ?in_app_iff; cbn; tauto).
Qed.

(** C7. With [use_cache] set and [active_resource] not [None], [read]
    returns [active_resource] and does nothing else. With [use_cache]
    and [skip_read] unset, [read] is the probe: it enters [_read] once,
    and so does a second [read] that finds the flags unset, whatever the
    first one returned. *)
Theorem read_cache_contract :
  (forall (c : option Client) (st : State World Client),
      use_cache (self st) = true ->
      is_not_none (active_resource (self st)) = true ->
      read c st = (active_resource (self st), st, []))
  /\ (forall (c : option Client) (st : State World Client),
        use_cache (self st) = false ->
        skip_read (self st) = false ->
        read c st = probe c st
        /\ calls M_read (events (read c st)) = 1)
  /\ (forall (c c' : option Client) (st : State World Client),
        let first := read c st in
        let second := read c' (final first) in
        use_cache (self st) = false ->
        skip_read (self st) = false ->
        use_cache (self (final first)) = false ->
        skip_read (self (final first)) = false ->
        calls M_read (events first) = 1
        /\ calls M_read (events second) = 1).
Proof.
  assert (B : forall (c : option Client) (st : State World Client),
        use_cache (self st) = false ->
        skip_read (self st) = false ->
        read c st = probe c st
        /\ calls M_read (events (read c st)) = 1).
  { intros c st Hcache Hskip.
    unfold_engine; cbn in *; rewrite Hcache, Hskip; cbn.
    run_engine; auto. }
  split; [|split; [exact B|]].
  - intros c st Hcache Hsome.
    unfold_engine; cbn in *; rewrite Hcache, Hsome; reflexivity.
  - intros c c' st first second; subst first second; cbv zeta.
    intros H1 H2 H3 H4. split.
    + apply (B c st H1 H2).
    + apply (B c' _ H3 H4).
Qed.


(** C3, as the code has it. With [skip_create] unset, [create] first
    resolves the client, which leaves the inherited attributes as they
    were. With [use_cache] set it then probes through [is_active]:
    [_read] is called on that state, what it returns is stored in
    [active_resource], and only then, if that is [None], is [_create]
    called, on the state that holds the stored result; if it is not
    [None] the run ends with "already exists". With [use_cache] unset
    there is no probe: [_create] is called on the state the client
    resolution left, [active_resource] as it was, and [_read] is never
    entered. *)
Theorem create_probes_when_cache_honoured :
  (forall (c : option Client) (st : State World Client),
      skip_create (self st) = false ->
      use_cache (self st) = true ->
      let '(client, st0, e0) := client_or_own c st in
      let '(v, st1, e1) := _read spec client st0 in
      let st2 :=
        mkState (with_base (with_active_resource v) (self st1)) (cluster st1) in
      base (self st0) = base (self st)
      /\ is_active spec client st0 = (is_not_none v, st2, e1)
      /\ create c st
         = (if is_not_none v then
              (PBool true,
               mkState (with_base (with_resource_created (PBool true)) (self st2))
                 (cluster st2),
               e0 ++ e1 ++ [PrintInfo Already_exists])
            else
              let '(b, st3, e3) := _create spec client st2 in
              let '(r, st4, e4) := after_primitive Op_create client (PBool b) st3 in
              (r, st4, e0 ++ e1 ++ e3 ++ e4))
      /\ probes_before_create (events (create c st)))
  /\ (forall (c : option Client) (st : State World Client),
        skip_create (self st) = false ->
        use_cache (self st) = false ->
        let '(client, st0, e0) := client_or_own c st in
        base (self st0) = base (self st)
        /\ create c st
           = (let '(b, st3, e3) := _create spec client st0 in
              let '(r, st4, e4) := after_primitive Op_create client (PBool b) st3 in
              (r, st4, e0 ++ e3 ++ e4))
        /\ calls M_read (events (create c st)) = 0
        /\ calls M_create (events (create c st)) = 1).
Proof.
  split.
  - intros c st Hskip Hcache.
    unfold_after_primitive; unfold probes_before_create.
    unfold_engine; cbn in *; rewrite Hskip.
    destruct c as [cl|]; cbn in *;
      [|destruct (k8s_client (self st)); cbn in *];
      rewrite Hcache; cbn.
    + run_engine; repeat split; try reflexivity;
        exists []; eexists; split; reflexivity.
    + run_engine; repeat split; try reflexivity;
        exists []; eexists; split; reflexivity.
    + run_engine; repeat split; try reflexivity;
        exists [NewClient]; eexists; split; reflexivity.
  - intros c st Hskip Hcache.
    unfold_after_primitive.
    unfold_engine; cbn in *; rewrite Hskip.
    destruct c as [cl|]; cbn in *;
      [|destruct (k8s_client (self st)); cbn in *];
      rewrite Hcache; cbn;
      run_engine; repeat split; reflexivity.
Qed.

(** C2, as the code has it. A primitive that the kind does not supply
    logs a "not defined" error, changes nothing and returns [True].
    Its operation then never takes the failure branch, and with the
    post hook of the base class it returns [True] on every state. *)
Theorem missing_primitive_counts_as_success (op : Operation) :
  primitive_missing spec op ->
  (forall (cl : Client) (st : State World Client),
      primitive spec op cl st
      = (PBool true, st,
         [Call (primitive_name op); LogError (Not_defined (primitive_name op))]))
  /\ (forall (c : option Client) (st : State World Client),
        ~ In (LogError (failure_line op)) (events (run op c st)))
  /\ (post_hook_missing spec op ->
      forall (c : option Client) (st : State World Client),
        result (run op c st) = PBool true).
Proof.
  intros Hmissing. split; [|split].
  - intros cl st. destruct op; cbn in Hmissing;
      unfold_engine; rewrite Hmissing; reflexivity.
  - intros c st. destruct op; cbn in Hmissing;
      unfold_engine; cbn in *; rewrite Hmissing;
      run_engine;
      rewrite ?in_app_iff; cbn; intuition discriminate.
  - intros Hhook c st. destruct op; cbn in Hmissing, Hhook;
      unfold_engine; cbn in *; rewrite Hmissing, Hhook;
      run_engine; reflexivity.
Qed.

End EngineFacts.

(** * Properties of the manifest projection *)

Module DictFacts.

Import Dict.

Lemma mem_In (k : string) (d : Dict.t) : mem k d = true <-> In k (keys d).
Proof.
  induction d as [|[k' v'] d IH]; cbn.
  - split; [discriminate | tauto].
  - destruct (String.eqb k k') eqn:E.
    + apply String.eqb_eq in E. subst. tauto.
    + apply String.eqb_neq in E. rewrite IH. split; [tauto|].
      intros [H|H]; [congruence | exact H].
Qed.

Lemma mem_false_In (k : string) (d : Dict.t) : mem k d = false <-> ~ In k (keys d).
Proof.
  rewrite <- mem_In. destruct (mem k d); split; congruence.
Qed.

Lemma mem_get (k : string) (d : Dict.t) :
  mem k d = true <-> exists v, get k d = Some v.
Proof.
  induction d as [|[k' v'] d IH]; cbn.
  - split; [discriminate | intros [v H]; discriminate].
  - destruct (String.eqb k k'); [|exact IH].
    split; [eauto | reflexivity].
Qed.

Lemma keys_set (k : string) (v : pyval) (d : Dict.t) :
  keys (set k v d) = if mem k d then keys d else keys d ++ [k].
Proof.
  unfold keys.
  induction d as [|[k' v'] d IH]; cbn; [reflexivity|].
  destruct (String.eqb k k'); cbn; [reflexivity|].
  rewrite IH. destruct (mem k d); reflexivity.
Qed.

Lemma get_set (k k' : string) (v : pyval) (d : Dict.t) :
  get k' (set k v d) = if String.eqb k' k then Some v else get k' d.
Proof.
  induction d as [|[k0 v0] d IH]; cbn; [reflexivity|].
  destruct (String.eqb k k0) eqn:E; cbn.
  - apply String.eqb_eq in E. subst k0.
    destruct (String.eqb k' k); reflexivity.
  - rewrite IH. destruct (String.eqb k' k0) eqn:E0; [|reflexivity].
    apply String.eqb_eq in E0. subst k0.
    rewrite String.eqb_sym, E. reflexivity.
Qed.


End DictFacts.

Ltac unfold_model_fields := unfold model_fields.
Ltac unfold_manifest_dict := unfold get_k8s_manifest_dict; cbv zeta.

Section ManifestFacts.

Import DictFacts.

Context {Client : Type}.
Variable dump_K8sApiClient : Client -> pyval.

Local Abbreviation model_fields := (model_fields dump_K8sApiClient).
Local Abbreviation model_dump := (model_dump dump_K8sApiClient).
Local Abbreviation get_k8s_manifest_dict :=
  (get_k8s_manifest_dict dump_K8sApiClient).

(** One turn of the loop adds its name, last, when the dump holds it
    and the manifest does not yet. *)
Lemma copy_attribute_keys (all m : Dict.t) (a : string) :
  Dict.keys (copy_attribute all m a)
  = if Dict.mem a all && negb (Dict.mem a m)
    then Dict.keys m ++ [a] else Dict.keys m.
Proof.
  unfold copy_attribute.
  destruct (Dict.mem a all) eqn:Ha; cbn; [|reflexivity].
  destruct (proj1 (mem_get a all) Ha) as [v Hv].
  rewrite Hv, keys_set. destruct (Dict.mem a m); reflexivity.
Qed.

(** The loop of the projection only ever adds, after the keys it
    already has, names of its list that the dump holds. *)
Lemma copy_loop_keys (all : Dict.t) (names : list string) :
  forall m : Dict.t,
  exists added,
    Dict.keys (fold_left (copy_attribute all) names m) = Dict.keys m ++ added
    /\ forall k, In k added ->
         In k names /\ Dict.mem k all = true /\ ~ In k (Dict.keys m).
Proof.
  induction names as [|a names IH]; intros m; cbn [fold_left].
  - exists []. rewrite app_nil_r. split; [reflexivity | intros k []].
  - destruct (IH (copy_attribute all m a)) as (added & Hk & Hadded).
    rewrite copy_attribute_keys in Hk, Hadded.
    destruct (Dict.mem a all) eqn:Ha; cbn in Hk, Hadded;
      [destruct (Dict.mem a m) eqn:Hm; cbn in Hk, Hadded|].
    + exists added. split; [exact Hk|].
      intros k Hin. destruct (Hadded k Hin) as (H1 & H2 & H3).
      split; [right; exact H1 | split; assumption].
    + exists (a :: added). split.
      * rewrite Hk, <- app_assoc. reflexivity.
      * intros k [<-|Hin].
        -- split; [left; reflexivity|]. split; [exact Ha|].
           apply mem_false_In, Hm.
        -- destruct (Hadded k Hin) as (H1 & H2 & H3).
           split; [right; exact H1|]. split; [exact H2|].
           intros Hc. apply H3, in_or_app. auto.
    + exists added. split; [exact Hk|].
      intros k Hin. destruct (Hadded k Hin) as (H1 & H2 & H3).
      split; [right; exact H1 | split; assumption].
Qed.

(** Every name of the list that the dump holds ends up a key. *)
Lemma copy_loop_complete (all : Dict.t) (names : list string) :
  forall (m : Dict.t) (k : string),
    In k (Dict.keys m) \/ (In k names /\ Dict.mem k all = true) ->
    In k (Dict.keys (fold_left (copy_attribute all) names m)).
Proof.
  induction names as [|a names IH]; intros m k H; cbn [fold_left].
  - destruct H as [H|[[] _]]. exact H.
  - apply IH. destruct H as [H|[[<-|H] Hmem]].
    + left. rewrite copy_attribute_keys.
      destruct (Dict.mem a all && negb (Dict.mem a m));
        [apply in_or_app; left|]; exact H.
    + left. rewrite copy_attribute_keys, Hmem.
      destruct (Dict.mem a m) eqn:Hm; cbn.
      * apply mem_In, Hm.
      * apply in_or_app. right. left. reflexivity.
    + right. split; assumption.
Qed.

(** What the loop stores under a name is what the dump holds under
    it. *)
Lemma copy_loop_get (all : Dict.t) (names : list string) :
  forall m : Dict.t,
    (forall k v, Dict.get k m = Some v -> Dict.get k all = Some v) ->
    forall k v,
      Dict.get k (fold_left (copy_attribute all) names m) = Some v ->
      Dict.get k all = Some v.
Proof.
  induction names as [|a names IH]; intros m Hm; cbn [fold_left]; [exact Hm|].
  apply IH. intros k v. unfold copy_attribute.
  destruct (Dict.mem a all); [|apply Hm].
  destruct (Dict.get a all) as [w|] eqn:Hg; [|apply Hm].
  rewrite get_set. destruct (String.eqb k a) eqn:E; [|apply Hm].
  apply String.eqb_eq in E. subst. congruence.
Qed.



Lemma wire_name_injective (fs : list FieldInfo) (f g : FieldInfo) :
  NoDup (map wire_name fs) ->
  In f fs -> In g fs -> wire_name f = wire_name g -> f = g.
Proof.
  induction fs as [|h fs IH]; cbn; [tauto|].
  intros Hnd [Hf|Hf] [Hg|Hg] Hw; inversion Hnd as [|? ? Hnotin Hnd']; subst.
  - reflexivity.
  - exfalso. apply Hnotin. rewrite Hw. apply in_map, Hg.
  - exfalso. apply Hnotin. rewrite <- Hw. apply in_map, Hf.
  - apply IH; assumption.
Qed.



(** Every entry of the manifest is an entry of the dump. *)
Lemma manifest_get (r : K8sResource Client) (k : string) (v : pyval) :
  Dict.get k (get_k8s_manifest_dict r) = Some v ->
  Dict.get k (model_dump r) = Some v.
Proof.
  apply copy_loop_get. cbn. discriminate.
Qed.

(** On every resource the keys of the manifest are names of
    [fields_for_k8s_manifest_base] that the dump holds, followed by
    names of [fields_for_k8s_manifest] that are not base names. *)
Lemma manifest_base_then_specialized (r : K8sResource Client) :
  exists base_part specialized,
    Dict.keys (get_k8s_manifest_dict r) = base_part ++ specialized
    /\ (forall k, In k base_part ->
          In k fields_for_k8s_manifest_base
          /\ Dict.mem k (model_dump r) = true)
    /\ (forall k, In k specialized ->
          In k (fields_for_k8s_manifest r)
          /\ ~ In k fields_for_k8s_manifest_base).
Proof.
  unfold_manifest_dict. rewrite fold_left_app.
  destruct (copy_loop_keys (model_dump r) fields_for_k8s_manifest_base [])
    as (base_part & Hb & Hbase).
  destruct (copy_loop_keys (model_dump r) (fields_for_k8s_manifest r)
              (fold_left (copy_attribute (model_dump r))
                 fields_for_k8s_manifest_base []))
    as (specialized & Hs & Hspec).
  exists base_part, specialized. split; [|split].
  - rewrite Hs, Hb. reflexivity.
  - intros k Hk. destruct (Hbase k Hk) as (H1 & H2 & _). auto.
  - intros k Hk. destruct (Hspec k Hk) as (H1 & H2 & H3).
    split; [exact H1|]. intros Hin. apply H3.
    apply copy_loop_complete. right. auto.
Qed.

Lemma mem_as_get (k : string) (d : Dict.t) :
  Dict.mem k d = match Dict.get k d with Some _ => true | None => false end.
Proof.
  induction d as [|[k' v'] d IH]; cbn; [reflexivity|].
  destruct (String.eqb k k'); [reflexivity | exact IH].
Qed.

(** One turn of the loop, seen from a key. *)
Lemma copy_attribute_get (all m : Dict.t) (a k : string) :
  Dict.get k (copy_attribute all m a)
  = if String.eqb k a && Dict.mem k all then Dict.get k all else Dict.get k m.
Proof.
  unfold copy_attribute.
  destruct (String.eqb k a) eqn:E; cbn.
  - apply String.eqb_eq in E. subst a.
    rewrite (mem_as_get k all).
    destruct (Dict.get k all) as [v|]; [|reflexivity].
    rewrite get_set, String.eqb_refl. reflexivity.
  - destruct (Dict.mem a all); [|reflexivity].
    destruct (Dict.get a all); [|reflexivity].
    rewrite get_set, E. reflexivity.
Qed.

Lemma copy_loop_lookup (all : Dict.t) (names : list string) (k : string) :
  forall m : Dict.t,
    Dict.get k (fold_left (copy_attribute all) names m)
    = if existsb (String.eqb k) names && Dict.mem k all
      then Dict.get k all else Dict.get k m.
Proof.
  induction names as [|a names IH]; intros m; cbn [fold_left existsb];
    [reflexivity|].
  rewrite IH, copy_attribute_get.
  destruct (String.eqb k a), (existsb (String.eqb k) names),
    (Dict.mem k all); reflexivity.
Qed.


End ManifestFacts.

(** * The engine on the small cluster *)

(** Equality of values: dicts whatever the order of their keys, [True]
    and [1], and what stays apart. *)
Example py_eq_examples :
  py_eq (PDict [("a", PInt 1); ("b", PStr "x")])
        (PDict [("b", PStr "x"); ("a", PBool true)]) = true
  /\ py_eq (PDict [("a", PInt 1)]) (PDict [("a", PInt 1); ("b", PNone)]) = false
  /\ py_eq (PList [PInt 1; PInt 2]) (PList [PInt 2; PInt 1]) = false
  /\ py_eq PNone (PBool false) = false.
Proof. repeat split. Qed.

(** The example of the spec: identity, one attribute off its default,
    one at its default. *)
Example manifest_of_demo_resource :
  get_k8s_manifest_dict Demo.dump_client (Demo.resource false true)
  = [ ("apiVersion", PStr "apps/v1");
      ("kind", PStr "Deployment");
      ("metadata", PDict [("name", PStr "n")]);
      ("replicas", PInt 3) ].
Proof. reflexivity. Qed.

Lemma skip_flag_short_circuit_witness :
  skip_flag Op_delete (self (Demo.state true true (Some 3))) = true
  /\ run tt Demo.save Demo.save Demo.live_spec Op_delete None
       (Demo.state true true (Some 3))
     = (PBool true, Demo.state true true (Some 3), [PrintInfo Skipping_delete])
  /\ forall m,
       calls m
         (events (run tt Demo.save Demo.save Demo.live_spec Op_delete None
                    (Demo.state true true (Some 3)))) = 0.
Proof.
  split; [reflexivity|].
  apply (skip_flag_short_circuit tt Demo.save Demo.save Demo.live_spec
           Op_delete None (Demo.state true true (Some 3))).
  reflexivity.
Defined.

Lemma noop_on_absence_witness :
  result (run tt Demo.save Demo.save Demo.live_spec Op_update None
            (Demo.state false true None)) = PBool true
  /\ events (run tt Demo.save Demo.save Demo.live_spec Op_update None
               (Demo.state false true None))
     = events (probe tt Demo.live_spec None (Demo.state false true None))
       ++ [PrintInfo Does_not_exist]
  /\ calls M_update
       (events (run tt Demo.save Demo.save Demo.live_spec Op_update None
                  (Demo.state false true None))) = 0.
Proof.
  apply (noop_on_absence tt Demo.save Demo.save Demo.live_spec
           Op_update None (Demo.state false true None));
    [discriminate | reflexivity | reflexivity].
Defined.

Lemma create_idempotent_when_active_witness :
  let st := Demo.state false true None in
  let first := create tt Demo.save Demo.live_spec None st in
  let second := create tt Demo.save Demo.live_spec None (final first) in
  calls M_create (events first) = 1
  /\ result second = PBool true
  /\ resource_created (self (final second)) = PBool true
  /\ calls M_create (events second) = 0
  /\ calls M_create (events first ++ events second) <= 1.
Proof.
  intros st first second.
  split; [reflexivity|].
  destruct (create_idempotent_when_active tt Demo.save Demo.live_spec)
    as [once twice].
  destruct (once None (final first)) as (R & F & N);
    [reflexivity | reflexivity | reflexivity |].
  destruct (twice None None st) as (_ & _ & L);
    [reflexivity | reflexivity | reflexivity |].
  repeat split; assumption.
Defined.

Lemma create_failure_reported_witness :
  let st := Demo.state false false (Some 3) in
  result (create tt Demo.save Demo.live_spec None st) = PBool false
  /\ resource_created (self (final (create tt Demo.save Demo.live_spec None st)))
     = PBool false
  /\ calls M_post_create (events (create tt Demo.save Demo.live_spec None st)) = 0
  /\ In (LogError Failed_to_create)
       (events (create tt Demo.save Demo.live_spec None st)).
Proof.
  intros st.
  apply (create_failure_reported tt Demo.save Demo.live_spec None tt st);
    reflexivity.
Defined.

Lemma read_cache_contract_witness :
  read tt Demo.live_spec None Demo.cached_state
  = (PObj 3, Demo.cached_state, [])
  /\ (let st := Demo.state false false (Some 3) in
      let first := read tt Demo.live_spec None st in
      let second := read tt Demo.live_spec None (final first) in
      result first = PObj 3
      /\ calls M_read (events first) = 1
      /\ calls M_read (events second) = 1).
Proof.
  destruct (read_cache_contract tt Demo.live_spec) as (cached & _ & twice).
  split.
  - apply (cached None Demo.cached_state); reflexivity.
  - intros st first second. split; [reflexivity|].
    apply (twice None None st); reflexivity.
Defined.


Lemma create_probes_when_cache_honoured_witness :
  (let st := Demo.state false true None in
   probes_before_create (events (create tt Demo.save Demo.live_spec None st))
   /\ active_resource (self (final (create tt Demo.save Demo.live_spec None st)))
      = PNone
   /\ cluster (final (create tt Demo.save Demo.live_spec None st)) = Some 7)
  /\ (let st := Demo.state false false (Some 3) in
      calls M_read (events (create tt Demo.save Demo.live_spec None st)) = 0
      /\ calls M_create (events (create tt Demo.save Demo.live_spec None st)) = 1).
Proof.
  destruct (create_probes_when_cache_honoured tt Demo.save Demo.save
              Demo.live_spec) as [cached uncached].
  split.
  - intros st.
    pose proof (cached None st eq_refl eq_refl) as H. cbn in H.
    destruct H as (_ & _ & _ & P).
    split; [exact P|]. split; reflexivity.
  - intros st.
    pose proof (uncached None st eq_refl eq_refl) as H. cbn in H.
    destruct H as (_ & _ & R & C). split; assumption.
Defined.

(** C3 as stated fails: with [use_cache] unset, [create] on a resource
    that is live in the cluster enters [_create] and never [_read]. *)
Lemma create_probes_unconditionally_counterexample :
  let st := Demo.state false false (Some 3) in
  let attempt := create tt Demo.save Demo.live_spec None st in
  skip_create (self st) = false
  /\ calls M_create (events attempt) = 1
  /\ active_resource (self (final attempt)) = PNone
  /\ ~ probes_before_create (events attempt).
Proof.
  intros st attempt. repeat split.
  intros (pre & post & E & _).
  assert (H : In (Call M_read) (events attempt)).
  { rewrite E. apply in_or_app. right. left. reflexivity. }
  cbn in H. intuition discriminate.
Qed.

Lemma missing_primitive_counts_as_success_witness :
  let st := Demo.state false false None in
  primitive_missing Demo.base_spec Op_update
  /\ primitive Demo.base_spec Op_update tt st
     = (PBool true, st, [Call M_update; LogError (Not_defined M_update)])
  /\ result (run tt Demo.save Demo.save Demo.base_spec Op_update None st)
     = PBool true.
Proof.
  intros st.
  destruct (missing_primitive_counts_as_success tt Demo.save Demo.save
              Demo.base_spec Op_update) as (P & _ & R); [reflexivity|].
  split; [reflexivity|]. split; [apply P | apply R; reflexivity].
Defined.

(** C2 as stated fails: on the base class alone, each operation enters
    its primitive, which is not supplied, and returns [True]. *)
Lemma missing_primitive_is_failure_counterexample :
  let st := Demo.state false false None in
  (primitive_missing Demo.base_spec Op_create
   /\ calls M_create
        (events (run tt Demo.save Demo.save Demo.base_spec Op_create None st)) = 1
   /\ result (run tt Demo.save Demo.save Demo.base_spec Op_create None st)
      = PBool true)
  /\ (primitive_missing Demo.base_spec Op_update
      /\ calls M_update
           (events (run tt Demo.save Demo.save Demo.base_spec Op_update None st)) = 1
      /\ result (run tt Demo.save Demo.save Demo.base_spec Op_update None st)
         = PBool true)
  /\ (primitive_missing Demo.base_spec Op_delete
      /\ calls M_delete
           (events (run tt Demo.save Demo.save Demo.base_spec Op_delete None st)) = 1
      /\ result (run tt Demo.save Demo.save Demo.base_spec Op_delete None st)
         = PBool true).
Proof.
  intros st. repeat split.
Qed.



(** * Further properties of the lifecycle engine *)

Ltac unfold_more :=
  unfold probe_guard, post_hook_impl, methods_of in *; unfold_engine.

Ltac run_more :=
  unfold_more; cbn in *; open_pairs;
  repeat (split_run; cbn in *; subst; open_pairs;
          try discriminate; try congruence).

Ltac in_cases :=
  cbn; unfold not; repeat split; intros;
  repeat match goal with
         | H : _ \/ _ |- _ => destruct H
         | H : False |- _ => destruct H
         | H : _ /\ _ |- _ => destruct H
         | H : @eq Event _ _ |- _ => discriminate H
         end;
  auto 10.

Section EngineMore.

Context {World : Type} {Client : Type}.
Variable new_client : Client.
Variable save_output_file_impl : State World Client -> State World Client.
Variable delete_output_file_impl : State World Client -> State World Client.
Variable spec : Specialization World Client.

Local Abbreviation read := (read new_client spec).
Local Abbreviation probe := (probe new_client spec).
Local Abbreviation get_k8s_client := (get_k8s_client new_client).
Local Abbreviation run :=
  (run new_client save_output_file_impl delete_output_file_impl spec).
Local Abbreviation probe_guard := (probe_guard new_client spec).
Local Abbreviation delete := (delete new_client delete_output_file_impl spec).
Local Abbreviation client_or_own := (client_or_own new_client).
Local Abbreviation after_primitive :=
  (after_primitive save_output_file_impl delete_output_file_impl spec).

(** X1. One run of an operation enters each method at most once, and
    only [_read], its own primitive, its own post hook and its own
    output-file method: never the primitive or the hook of another
    operation. *)
Theorem operation_enters_only_its_methods (op : Operation)
  (c : option Client) (st : State World Client) (m : Method) :
  calls m (events (run op c st)) <= 1
  /\ (In (Call m) (events (run op c st)) -> In m (methods_of op)).
Proof.
  destruct op; run_more;
    (split; [destruct m; cbn; lia
            | cbn; intros H;
              repeat match goal with
                     | H : _ \/ _ |- _ => destruct H
                     | H : False |- _ => destruct H
                     | H : Call _ = Call _ |- _ => inversion H; subst; clear H
                     | H : _ = Call _ |- _ => discriminate H
                     end; tauto]).
Qed.

(** X2. With its skip flag unset, [update] (and likewise [delete])
    resolves the client and then calls [_read], whatever [use_cache]
    and [active_resource] are, and stores what [_read] returned in
    [active_resource]: if that is [None] the run ends there, with the
    stored [None] in the state it returns; otherwise the primitive is
    called on the state that holds the stored object. [_read] is
    entered exactly once: the probe of these two operations is never
    skipped and never served from the cache. *)
Theorem update_delete_always_probe (op : Operation) (c : option Client)
  (st : State World Client) :
  op <> Op_create ->
  skip_flag op (self st) = false ->
  let '(client, st0, e0) := client_or_own c st in
  let '(v, st1, e1) := _read spec client st0 in
  let st2 :=
    mkState (with_base (with_active_resource v) (self st1)) (cluster st1) in
  run op c st
  = (if is_not_none v then
       let '(w, st3, e3) := primitive spec op client st2 in
       let '(r, st4, e4) := after_primitive op client w st3 in
       (r, st4, e0 ++ e1 ++ e3 ++ e4)
     else (PBool true, st2, e0 ++ e1 ++ [PrintInfo Does_not_exist]))
  /\ calls M_read (events (run op c st)) = 1.
Proof.
  intros Hop Hskip.
  destruct op; [congruence | |]; cbn in Hskip;
    unfold_after_primitive;
    unfold_engine; cbn in *; rewrite Hskip;
    (destruct c as [cl|]; cbn in *;
     [|destruct (k8s_client (self st)); cbn in *]);
    run_engine; repeat split; reflexivity.
Qed.

(** X3. In a run of an operation the post hook is entered exactly when
    the success line is printed; the output-file method is entered only
    then; and a run that prints the success line has entered the
    primitive and does not log the failure line. So a skipped
    operation, a [create] that finds the resource, an [update] or
    [delete] that finds none, and a failed primitive never touch the
    hook or the manifest file. *)
Theorem hooks_only_after_success (op : Operation) (c : option Client)
  (st : State World Client) :
  let evs := events (run op c st) in
  (In (PrintInfo (success_line op)) evs <-> In (Call (post_hook_name op)) evs)
  /\ (In (Call (output_file_method op)) evs ->
      In (PrintInfo (success_line op)) evs)
  /\ (In (PrintInfo (success_line op)) evs ->
      In (Call (primitive_name op)) evs
      /\ ~ In (LogError (failure_line op)) evs).
Proof.
  destruct op; run_more; in_cases.
Qed.

(** X4. What an operation returns is [True] or a falsy value: a truthy
    result is the boolean [True] itself, also for [update] and
    [delete], whose primitives may return any object. *)
Theorem truthy_result_is_True (op : Operation) (c : option Client)
  (st : State World Client) :
  truthy (result (run op c st)) = true ->
  result (run op c st) = PBool true.
Proof.
  destruct op; run_more; auto.
Qed.

(** X5. With its skip flag unset, when [update] (or [delete]) finds the
    resource and its primitive returns a falsy value [v], which need
    not be [False]: the operation returns [v] itself, [v] is what
    [resource_updated] ([resource_deleted]) holds, the failure is
    logged, and neither the post hook nor the output-file method is
    entered. *)
Theorem update_delete_failure_reported (op : Operation) (c : option Client)
  (client : Client) (st : State World Client) (v : pyval) :
  op <> Op_create ->
  skip_flag op (self st) = false ->
  result (probe_guard c st) = (client, true) ->
  result (primitive spec op client (final (probe_guard c st))) = v ->
  truthy v = false ->
  result (run op c st) = v
  /\ outcome_flag op (self (final (run op c st))) = v
  /\ In (LogError (failure_line op)) (events (run op c st))
  /\ calls (post_hook_name op) (events (run op c st)) = 0
  /\ calls (output_file_method op) (events (run op c st)) = 0.
Proof.
  intros Hop Hskip Hguard Hprim Hfalsy.
  destruct op; [congruence | |]; cbn in Hskip;
    unfold_more; cbn in *; rewrite Hskip; run_more;
    repeat split; try congruence; cbn; auto 10.
Qed.

(** X6. When the kind supplies a post hook that returns [False], every
    run of the operation that prints its success line returns [False],
    although the primitive has succeeded and no failure is logged: a
    [False] from an operation does not mean that the cluster was left
    untouched. *)
Theorem failing_hook_fails_operation (op : Operation)
  (h : Client -> State World Client -> bool * State World Client)
  (c : option Client) (st : State World Client) :
  post_hook_impl spec op = Some h ->
  (forall cl s, fst (h cl s) = false) ->
  In (PrintInfo (success_line op)) (events (run op c st)) ->
  result (run op c st) = PBool false
  /\ In (Call (primitive_name op)) (events (run op c st))
  /\ ~ In (LogError (failure_line op)) (events (run op c st)).
Proof.
  intros Hhook Hfalse.
  destruct op; cbn in Hhook;
    unfold_more; cbn in *; rewrite Hhook;
    run_more;
    try match goal with
        | E : h ?cl ?s = (_, _) |- _ =>
            let F := fresh in
            pose proof (Hfalse cl s) as F; rewrite E in F; cbn in F; subst
        end;
    in_cases; try congruence.
Qed.

(** X7. [skip_read] switches off [read] only: when the cache does not
    answer (it is off, or [active_resource] is [None]) and [skip_read]
    is set, [read] returns [True], not a live object, enters no method
    and changes nothing, while [is_active], the probe of [create],
    [update] and [delete], still enters [_read] on that state. *)
Theorem read_skipped (c : option Client) (cl : Client)
  (st : State World Client) :
  skip_read (self st) = true ->
  use_cache (self st) = false \/ active_resource (self st) = PNone ->
  read c st = (PBool true, st, [PrintInfo Skipping_read])
  /\ calls M_read (events (is_active spec cl st)) = 1.
Proof.
  intros Hskip Hcold. split.
  - destruct Hcold as [Hcache|Hnone]; unfold_more; cbn.
    + rewrite Hcache, Hskip. reflexivity.
    + rewrite Hnone, Hskip, andb_false_r. reflexivity.
  - clear Hskip Hcold. run_more; auto.
Qed.

(** X8. [get_k8s_client] builds the client once: a second call returns
    the client of the first, builds nothing and changes nothing. And
    an operation builds a client only when it is not skipped, the
    caller passes none and the resource holds none. *)
Theorem client_built_once :
  (forall st : State World Client,
      let first := get_k8s_client st in
      k8s_client (self (final first)) = Some (result first)
      /\ get_k8s_client (final first) = (result first, final first, []))
  /\ (forall (op : Operation) (c : option Client) (st : State World Client),
        In NewClient (events (run op c st)) ->
        c = None /\ k8s_client (self st) = None
        /\ skip_flag op (self st) = false).
Proof.
  split.
  - intros st. unfold_more. cbn.
    destruct (k8s_client (self st)) eqn:E; cbn; rewrite ?E; auto.
  - intros op c st.
    destruct op; run_more; in_cases.
Qed.

(** X9. [read] does not fill the cache: with a read primitive that
    leaves the inherited attributes of the resource alone, [read]
    leaves them as they were, [active_resource] included. So with
    [use_cache] set, [active_resource] at [None] and [skip_read] unset,
    a second [read] probes the cluster again, as the first did. *)
Theorem read_does_not_fill_cache (c c' : option Client)
  (st : State World Client) :
  (forall f, read_impl spec = Some f ->
             forall cl s, base (self (snd (f cl s))) = base (self s)) ->
  base (self (final (read c st))) = base (self st)
  /\ (use_cache (self st) = true ->
      active_resource (self st) = PNone ->
      skip_read (self st) = false ->
      calls M_read (events (read c st)) = 1
      /\ calls M_read (events (read c' (final (read c st)))) = 1).
Proof.
  intros Hpure.
  assert (A : forall k s, base (self (final (read k s))) = base (self s)).
  { intros k s. unfold_more; cbn.
    destruct (use_cache (self s) && is_not_none (active_resource (self s)));
      [reflexivity|].
    destruct (skip_read (self s)); [reflexivity|].
    destruct (read_impl spec) as [f|] eqn:Hf.
    - destruct k as [cl|]; cbn; [|destruct (k8s_client (self s)); cbn].
      + pose proof (Hpure f eq_refl cl s) as P.
        destruct (f cl s); exact P.
      + pose proof (Hpure f eq_refl c0 s) as P.
        destruct (f c0 s); exact P.
      + match goal with
        | |- context [f ?cl ?s'] =>
            pose proof (Hpure f eq_refl cl s') as P; destruct (f cl s')
        end.
        exact P.
    - destruct k as [cl|]; cbn; [|destruct (k8s_client (self s)); cbn];
        reflexivity. }
  assert (B : forall k s,
             use_cache (self s) = true ->
             active_resource (self s) = PNone ->
             skip_read (self s) = false ->
             calls M_read (events (read k s)) = 1).
  { intros k s H1 H2 H3. unfold_more; cbn. rewrite H1, H2, H3. cbn.
    run_more; auto. }
  split; [apply A|].
  intros H1 H2 H3. split; [apply B; assumption|].
  apply B; rewrite A; assumption.
Qed.

(** X10. [delete] does not clear the cache: with primitives that leave
    the resource object alone, after a successful [delete] of a live
    resource [active_resource] still holds the object the probe
    returned, so [read] with [use_cache] set hands out the deleted
    object without asking the cluster. *)
Theorem delete_leaves_stale_cache
  (f d : Client -> State World Client -> pyval * State World Client)
  (c : option Client) (st : State World Client) :
  read_impl spec = Some f ->
  (forall cl s, self (snd (f cl s)) = self s) ->
  delete_impl spec = Some d ->
  (forall cl s, self (snd (d cl s)) = self s /\ truthy (fst (d cl s)) = true) ->
  post_delete_impl spec = None ->
  skip_delete (self st) = false ->
  save_output (self st) = false ->
  use_cache (self st) = true ->
  is_not_none (result (probe c st)) = true ->
  let st' := final (delete c st) in
  result (delete c st) = PBool true
  /\ active_resource (self st') = result (probe c st)
  /\ forall c', read c' st' = (result (probe c st), st', []).
Proof.
  intros Hr Hf Hd Hdel Hpost Hskip Hsave Hcache Hlive.
  unfold_more; cbn in *. rewrite Hskip, Hr, Hd, Hpost in *. cbn in *.
  destruct c as [cl|]; cbn in *; [|destruct (k8s_client (self st)); cbn in *].
  all: destruct (f _ _) as [v s1] eqn:Ef;
    match type of Ef with
    | _ ?cl ?s' = _ => pose proof (Hf cl s') as P; rewrite Ef in P
    end; cbn in *; rewrite Hlive; cbn.
  all: destruct (d _ _) as [w s2] eqn:Ed;
    match type of Ed with
    | _ ?cl ?s' = _ => destruct (Hdel cl s') as [Q T]; rewrite Ed in Q, T
    end; cbn in *; rewrite T; cbn.
  all: destruct s1 as [r1 w1], s2 as [r2 w2]; cbn in *; subst r1 r2; cbn;
    rewrite Hsave; cbn; rewrite Hcache, Hlive; cbn; auto.
Qed.

End EngineMore.

(** * What the engine leaves alone *)

Section EngineInvariant.

Context {World : Type} {Client : Type}.
Variable new_client : Client.
Variable save_output_file_impl : State World Client -> State World Client.
Variable delete_output_file_impl : State World Client -> State World Client.
Variable spec : Specialization World Client.

Lemma same_configuration_refl (r : K8sResource Client) :
  same_configuration r r.
Proof.
  unfold same_configuration, same_declared, same_flags. auto 20.
Qed.

Lemma same_configuration_trans (r1 r2 r3 : K8sResource Client) :
  same_configuration r1 r2 -> same_configuration r2 r3 ->
  same_configuration r1 r3.
Proof.
  unfold same_configuration, same_declared, same_flags.
  intros H1 H2. repeat split; intuition congruence.
Qed.

Lemma keeps_ret {A} (a : A) : keeps_configuration (ret a : M World Client A).
Proof. intros st. apply same_configuration_refl. Qed.

Lemma keeps_emit (e : Event) : keeps_configuration (emit e : M World Client unit).
Proof. intros st. apply same_configuration_refl. Qed.

Lemma keeps_get_self : keeps_configuration (get_self : M World Client (K8sResource Client)).
Proof. intros st. apply same_configuration_refl. Qed.

Lemma keeps_bind {A B} (m : M World Client A) (k : A -> M World Client B) :
  keeps_configuration m -> (forall a, keeps_configuration (k a)) ->
  keeps_configuration (bind m k).
Proof.
  intros Hm Hk st. unfold bind, final.
  specialize (Hm st). unfold final in Hm.
  destruct (m st) as [[a st1] e1]. cbn in Hm.
  specialize (Hk a st1). unfold final in Hk.
  destruct (k a st1) as [[b st2] e2]. cbn in *.
  eapply same_configuration_trans; eassumption.
Qed.

Lemma keeps_observed (f : ResourceBase -> ResourceBase) :
  (forall b, same_flags b (f b)) ->
  keeps_configuration (modify_self (with_base f) : M World Client unit).
Proof.
  intros Hf st. split; [|apply Hf].
  unfold same_declared. cbn. auto 20.
Qed.

Lemma keeps_client_slot (c : option Client) :
  keeps_configuration (modify_self (with_k8s_client c) : M World Client unit).
Proof.
  intros st. unfold same_configuration, same_declared, same_flags. cbn.
  auto 20.
Qed.

Lemma keeps_enter {A} (m : Method)
  (body : State World Client -> A * State World Client) :
  (forall s, same_configuration (self s) (self (snd (body s)))) ->
  keeps_configuration (enter m body).
Proof.
  intros H st. unfold enter, final. specialize (H st).
  destruct (body st). exact H.
Qed.

Lemma with_observed_same_flags (v : pyval) :
  (forall b, same_flags b (with_active_resource v b))
  /\ (forall b, same_flags b (with_resource_created v b))
  /\ (forall b, same_flags b (with_resource_updated v b))
  /\ (forall b, same_flags b (with_resource_deleted v b)).
Proof.
  unfold same_flags. repeat split.
Qed.


Ltac keeps_step :=
  first
    [ apply keeps_bind
    | apply keeps_ret
    | apply keeps_emit
    | apply keeps_get_self
    | apply keeps_client_slot
    | apply keeps_observed; apply with_observed_same_flags
    | match goal with
      | |- keeps_configuration (if ?b then _ else _) => destruct b
      | |- keeps_configuration (match ?x with _ => _ end) => destruct x eqn:?
      | |- forall _, _ => intro
      end ].

Section KindKeeps.

Hypothesis Hkind :
  kind_keeps_configuration save_output_file_impl delete_output_file_impl spec.

Ltac keeps_impl :=
  apply keeps_enter; intros;
  match goal with
  | E : _ = Some ?f |- context [?f ?cl ?s] =>
      first [ apply (proj1 Hkind f E)
            | apply (proj1 (proj2 Hkind) f E)
            | apply (proj1 (proj2 (proj2 Hkind)) f E)
            | apply (proj1 (proj2 (proj2 (proj2 Hkind))) f E)
            | apply (proj1 (proj2 (proj2 (proj2 (proj2 Hkind)))) f E)
            | apply (proj1 (proj2 (proj2 (proj2 (proj2 (proj2 Hkind))))) f E)
            | apply (proj1 (proj2 (proj2 (proj2 (proj2 (proj2 (proj2 Hkind)))))) f E) ]
  end.

Ltac keeps_all := repeat first [keeps_step | keeps_impl].

Lemma keeps_client_or_own (c : option Client) :
  keeps_configuration (@client_or_own World Client new_client c).
Proof.
  unfold client_or_own, get_k8s_client. keeps_all.
Qed.

Lemma keeps_read_primitive (cl : Client) :
  keeps_configuration (_read spec cl).
Proof.
  unfold _read. keeps_all.
Qed.

Lemma keeps_is_active (cl : Client) :
  keeps_configuration (is_active spec cl).
Proof.
  unfold is_active. keeps_all. apply keeps_read_primitive.
Qed.

Lemma keeps_save_output_file :
  keeps_configuration (save_output_file save_output_file_impl).
Proof.
  apply keeps_enter. intros s. apply Hkind.
Qed.

Lemma keeps_delete_output_file :
  keeps_configuration (delete_output_file delete_output_file_impl).
Proof.
  apply keeps_enter. intros s. apply Hkind.
Qed.

Lemma keeps_read (c : option Client) :
  keeps_configuration (read new_client spec c).
Proof.
  unfold read.
  repeat first [ apply keeps_client_or_own | apply keeps_read_primitive
               | keeps_step ].
Qed.

Lemma keeps_create (c : option Client) :
  keeps_configuration (create new_client save_output_file_impl spec c).
Proof.
  unfold create, create_resource, use_cache_and_is_active,
    _create, post_create.
  repeat first [ apply keeps_client_or_own | apply keeps_is_active
               | apply keeps_save_output_file | keeps_step | keeps_impl ].
Qed.

Lemma keeps_update (c : option Client) :
  keeps_configuration (update new_client save_output_file_impl spec c).
Proof.
  unfold update, _update, post_update.
  repeat first [ apply keeps_client_or_own | apply keeps_is_active
               | apply keeps_save_output_file | keeps_step | keeps_impl ].
Qed.

Lemma keeps_delete (c : option Client) :
  keeps_configuration (delete new_client delete_output_file_impl spec c).
Proof.
  unfold delete, _delete, post_delete.
  repeat first [ apply keeps_client_or_own | apply keeps_is_active
               | apply keeps_delete_output_file | keeps_step | keeps_impl ].
Qed.

Lemma keeps_run (op : Operation) (c : option Client) :
  keeps_configuration
    (run new_client save_output_file_impl delete_output_file_impl spec op c).
Proof.
  destruct op; [apply keeps_create | apply keeps_update | apply keeps_delete].
Qed.

(** X18. With a kind whose methods leave the declared attributes and
    the control flags of the resource alone, so do [read], [create],
    [update] and [delete]: the engine itself writes only
    [active_resource], [resource_created], [resource_updated],
    [resource_deleted] and the client slot. *)
Theorem operations_keep_configuration (c : option Client)
  (st : State World Client) :
  same_configuration (self st) (self (final (read new_client spec c st)))
  /\ forall op,
      same_configuration (self st)
        (self (final (run new_client save_output_file_impl
                        delete_output_file_impl spec op c st))).
Proof.
  split; [apply keeps_read | intros op; apply keeps_run].
Qed.

End KindKeeps.

End EngineInvariant.

(** * Further properties of the manifest projection *)

Section ManifestMore.

Import DictFacts.

Context {Client : Type}.
Variable dump_K8sApiClient : Client -> pyval.

Local Abbreviation model_fields := (model_fields dump_K8sApiClient).
Local Abbreviation model_dump := (model_dump dump_K8sApiClient).
Local Abbreviation get_k8s_manifest_dict :=
  (get_k8s_manifest_dict dump_K8sApiClient).

Lemma set_keeps_keys_distinct (k : string) (v : pyval) (d : Dict.t) :
  NoDup (Dict.keys d) -> NoDup (Dict.keys (Dict.set k v d)).
Proof.
  intros H. rewrite keys_set. destruct (Dict.mem k d) eqn:E; [exact H|].
  apply mem_false_In in E.
  apply NoDup_app; [exact H | repeat constructor; intros [] |].
  intros x Hx [<-|[]]. exact (E Hx).
Qed.

Lemma copy_loop_keeps_keys_distinct (all : Dict.t) (names : list string) :
  forall m : Dict.t,
    NoDup (Dict.keys m) ->
    NoDup (Dict.keys (fold_left (copy_attribute all) names m)).
Proof.
  induction names as [|a names IH]; intros m H; cbn [fold_left]; [exact H|].
  apply IH. unfold copy_attribute.
  destruct (Dict.mem a all); [|exact H].
  destruct (Dict.get a all); [|exact H].
  apply set_keeps_keys_distinct, H.
Qed.

(** X11. The manifest has no key twice, also when
    [fields_for_k8s_manifest] repeats a name or names a base
    attribute. *)
Theorem manifest_keys_distinct (r : K8sResource Client) :
  NoDup (Dict.keys (get_k8s_manifest_dict r)).
Proof.
  apply copy_loop_keeps_keys_distinct. constructor.
Qed.

(** X12. The manifest is the dump restricted to the two lists: under a
    name of [fields_for_k8s_manifest_base] or of
    [fields_for_k8s_manifest] it holds what the dump holds under that
    name (nothing when the dump has no such key), and under any other
    name it holds nothing, whatever the dump has there. *)
Theorem manifest_lookup (r : K8sResource Client) (k : string) :
  Dict.get k (get_k8s_manifest_dict r)
  = if existsb (String.eqb k)
         (fields_for_k8s_manifest_base ++ fields_for_k8s_manifest r)
    then Dict.get k (model_dump r)
    else None.
Proof.
  unfold_manifest_dict. rewrite copy_loop_lookup.
  rewrite (mem_as_get k (model_dump r)).
  generalize (Dict.get k (model_dump r)).
  generalize (existsb (String.eqb k)
                (fields_for_k8s_manifest_base ++ fields_for_k8s_manifest r)).
  intros [|] [v|]; reflexivity.
Qed.

(** Two lists of attributes that differ only in attributes whose wire
    name is not [k] dump the same thing under [k]. *)
Lemma dump_loop_agree (k : string) (fs fs' : list FieldInfo) :
  Forall2 (fun a b => a = b \/ (wire_name a <> k /\ wire_name b <> k)) fs fs' ->
  forall d d' : Dict.t,
    Dict.get k d = Dict.get k d' ->
    Dict.get k
      (fold_left
         (fun d f =>
            if at_default f then d
            else Dict.set (wire_name f) (f_value f) d) fs d)
    = Dict.get k
        (fold_left
           (fun d f =>
              if at_default f then d
              else Dict.set (wire_name f) (f_value f) d) fs' d').
Proof.
  induction 1 as [|a b fs fs' Hab _ IH]; intros d d' Hd; cbn [fold_left];
    [exact Hd|].
  apply IH. destruct Hab as [<-|[Ha Hb]].
  - destruct (at_default a); [exact Hd|].
    rewrite !get_set, Hd. reflexivity.
  - assert (Ea : String.eqb k (wire_name a) = false)
      by (apply String.eqb_neq; congruence).
    assert (Eb : String.eqb k (wire_name b) = false)
      by (apply String.eqb_neq; congruence).
    destruct (at_default a), (at_default b);
      rewrite ?get_set, ?Ea, ?Eb; exact Hd.
Qed.

Lemma copy_loop_agree (all all' : Dict.t) (names : list string) :
  (forall a, In a names -> Dict.get a all' = Dict.get a all) ->
  forall m : Dict.t,
    fold_left (copy_attribute all') names m
    = fold_left (copy_attribute all) names m.
Proof.
  induction names as [|a names IH]; intros H m; cbn [fold_left];
    [reflexivity|].
  assert (E : copy_attribute all' m a = copy_attribute all m a).
  { unfold copy_attribute. rewrite !mem_as_get, (H a); [reflexivity|].
    left. reflexivity. }
  rewrite E. apply IH. intros b Hb. apply H. right. exact Hb.
Qed.

(** Resources with the same declared attributes have the same
    manifest, when [fields_for_k8s_manifest] names no attribute of the
    lifecycle. *)
Lemma manifest_of_same_declared (r r' : K8sResource Client) :
  same_declared r r' ->
  (forall k, In k (fields_for_k8s_manifest r) -> ~ In k lifecycle_attributes) ->
  get_k8s_manifest_dict r' = get_k8s_manifest_dict r.
Proof.
  intros Hsame Hfields.
  destruct r as [b av kd md ar pr fm kc sf], r' as [b' av' kd' md' ar' pr' fm' kc' sf'].
  unfold same_declared in Hsame. cbn in Hsame, Hfields.
  destruct Hsame as (<- & <- & <- & <- & <- & <- & <-).
  unfold_manifest_dict. cbn [fields_for_k8s_manifest].
  apply copy_loop_agree. intros k Hk.
  assert (Hout : ~ In k lifecycle_attributes).
  { apply in_app_or in Hk. destruct Hk as [Hk|Hk]; [|apply Hfields, Hk].
    unfold fields_for_k8s_manifest_base, lifecycle_attributes in *.
    cbn in Hk |- *.
    intros H.
    repeat match goal with
           | H : _ \/ _ |- _ => destruct H
           | H : False |- _ => destruct H
           end; subst; discriminate. }
  apply dump_loop_agree; [|reflexivity].
  unfold_model_fields.
  assert (Hne : forall n, In n lifecycle_attributes -> n <> k).
  { intros n Hn E. subst n. exact (Hout Hn). }
  assert (Hrefl : forall l : list FieldInfo,
             Forall2 (fun a b => a = b \/ (wire_name a <> k /\ wire_name b <> k))
               l l).
  { induction l; constructor; auto. }
  apply Forall2_app; [|apply Forall2_app; [|apply Hrefl]].
  - unfold ResourceBase_fields.
    repeat (apply Forall2_cons || apply Forall2_nil);
      right; split; apply Hne; unfold lifecycle_attributes; cbn; tauto.
  - repeat (apply Forall2_cons || apply Forall2_nil);
      first [ left; reflexivity
            | right; split; apply Hne; unfold lifecycle_attributes; cbn; tauto ].
Qed.

(** X13. The manifest does not depend on the state of the lifecycle:
    two resources with the same declared attributes, whatever their
    flags, observed state and client, have the same manifest, provided
    [fields_for_k8s_manifest] names none of the attributes of the
    lifecycle. *)
Theorem manifest_ignores_lifecycle_state (r r' : K8sResource Client) :
  same_declared r r' ->
  (forall k, In k (fields_for_k8s_manifest r) -> ~ In k lifecycle_attributes) ->
  get_k8s_manifest_dict r' = get_k8s_manifest_dict r.
Proof.
  apply manifest_of_same_declared.
Qed.

End ManifestMore.

Section ManifestStable.

Context {World : Type} {Client : Type}.
Variable new_client : Client.
Variable save_output_file_impl : State World Client -> State World Client.
Variable delete_output_file_impl : State World Client -> State World Client.
Variable spec : Specialization World Client.
Variable dump_K8sApiClient : Client -> pyval.

(** X19. With a kind whose methods leave the declared attributes and
    the control flags alone, and a [fields_for_k8s_manifest] that names
    no attribute of the lifecycle, [create], [update] and [delete] do
    not change the manifest: [get_k8s_manifest_dict] gives the same
    mapping after the operation as before, whatever the operation did
    on the cluster. *)
Theorem manifest_stable_under_operations (op : Operation)
  (c : option Client) (st : State World Client) :
  kind_keeps_configuration save_output_file_impl delete_output_file_impl spec ->
  (forall k, In k (fields_for_k8s_manifest (self st)) ->
             ~ In k lifecycle_attributes) ->
  get_k8s_manifest_dict dump_K8sApiClient
    (self (final (run new_client save_output_file_impl
                    delete_output_file_impl spec op c st)))
  = get_k8s_manifest_dict dump_K8sApiClient (self st).
Proof.
  intros Hkind Hfields.
  apply manifest_of_same_declared; [|exact Hfields].
  apply (keeps_run new_client save_output_file_impl delete_output_file_impl
           spec Hkind op c st).
Qed.

End ManifestStable.

(** * Properties of the naming functions *)

Module StringFacts.

Lemma contains_char_app (c : ascii) (x y : string) :
  contains_char c (x ++ y)%string = contains_char c x || contains_char c y.
Proof.
  induction x as [|a x IH]; cbn; [reflexivity|].
  rewrite IH, orb_assoc. reflexivity.
Qed.

Lemma append_nonempty (x y : string) : y <> "" -> (x ++ y)%string <> "".
Proof.
  destruct x; cbn; [tauto | discriminate].
Qed.

(** A string is cut in one way only at the first occurrence of a
    character. *)
Lemma append_sep_inj (c : ascii) (x x' y y' : string) :
  contains_char c x = false ->
  contains_char c x' = false ->
  (x ++ String c y)%string = (x' ++ String c y')%string ->
  x = x' /\ y = y'.
Proof.
  revert x'. induction x as [|a x IH]; intros [|a' x'] Hx Hx' E; cbn in *.
  - injection E as ->. auto.
  - injection E as <- _. rewrite Ascii.eqb_refl in Hx'. discriminate.
  - injection E as -> _. rewrite Ascii.eqb_refl in Hx. discriminate.
  - injection E as <- E.
    apply orb_false_iff in Hx, Hx'.
    destruct (IH x' (proj2 Hx) (proj2 Hx') E) as [-> ->]. auto.
Qed.

(** Joining is one-to-one on non-empty items free of the separator. *)
Lemma concat_sep_inj (c : ascii) (l : list string) :
  forall l' : list string,
    Forall (fun i => contains_char c i = false /\ i <> "") l ->
    Forall (fun i => contains_char c i = false /\ i <> "") l' ->
    String.concat (String c "") l = String.concat (String c "") l' ->
    l = l'.
Proof.
  induction l as [|i l IH]; intros [|i' l'] H H' E.
  - reflexivity.
  - exfalso. inversion H' as [|? ? [_ Hne] Hl']; subst.
    destruct l'; cbn in E; [auto|].
    destruct i'; [auto | discriminate].
  - exfalso. inversion H as [|? ? [_ Hne] Hl]; subst.
    destruct l; cbn in E; [auto|].
    destruct i; [auto | discriminate].
  - inversion H as [|? ? [Hi Hne] Hl]; subst.
    inversion H' as [|? ? [Hi' Hne'] Hl']; subst.
    destruct l as [|j l], l' as [|j' l'].
    + cbn in E. subst. reflexivity.
    + exfalso. cbn [String.concat] in E. subst i.
      rewrite contains_char_app in Hi. cbn in Hi.
      rewrite Ascii.eqb_refl, orb_true_r in Hi. discriminate.
    + exfalso. cbn [String.concat] in E. subst i'.
      rewrite contains_char_app in Hi'. cbn in Hi'.
      rewrite Ascii.eqb_refl, orb_true_r in Hi'. discriminate.
    + change ((i ++ String c (String.concat (String c "") (j :: l)))%string
              = (i' ++ String c (String.concat (String c "") (j' :: l')))%string)
        in E.
      destruct (append_sep_inj c _ _ _ _ Hi Hi' E) as [-> E'].
      f_equal. apply IH; assumption.
Qed.

End StringFacts.

Ltac unfold_get_namespace := unfold get_namespace.

Section NamingFacts.

Import StringFacts.

Context {Client : Type}.
Variable DEFAULT_K8S_NAMESPACE : string.

Local Abbreviation get_namespace := (get_namespace DEFAULT_K8S_NAMESPACE).

(** X14. [get_resource_name] is the resource's own name when that is a
    non-empty string, else the name of its metadata when that is
    non-empty, else the class name; an empty name counts as no name.
    With a non-empty class name the result is never empty. *)
Theorem resource_name_never_empty (self_name : option string)
  (class_name : string) (r : K8sResource Client) :
  class_name <> "" ->
  get_resource_name self_name class_name r <> ""
  /\ (forall n, self_name = Some n -> n <> "" ->
        get_resource_name self_name class_name r = n)
  /\ (self_name = None \/ self_name = Some "" ->
      get_resource_name self_name class_name r
      = if String.eqb (name (metadata r)) "" then class_name
        else name (metadata r)).
Proof.
  intros Hcls. unfold get_resource_name, or_else.
  split; [|split].
  - destruct self_name as [n|].
    + destruct (String.eqb n "") eqn:E.
      * destruct (String.eqb (name (metadata r)) "") eqn:E'; [exact Hcls|].
        apply String.eqb_neq, E'.
      * apply String.eqb_neq, E.
    + destruct (String.eqb (name (metadata r)) "") eqn:E'; [exact Hcls|].
      apply String.eqb_neq, E'.
  - intros n -> Hn. apply String.eqb_neq in Hn. rewrite Hn. reflexivity.
  - intros [->| ->]; reflexivity.
Qed.

(** X15. [get_namespace] is the namespace of the metadata when that is
    a non-empty string and the default namespace otherwise, an empty
    namespace included. With a non-empty default the result is never
    empty. *)
Theorem namespace_never_empty (r : K8sResource Client) :
  DEFAULT_K8S_NAMESPACE <> "" ->
  get_namespace r <> ""
  /\ (forall ns, namespace (metadata r) = Some ns -> ns <> "" ->
        get_namespace r = ns)
  /\ (namespace (metadata r) = None \/ namespace (metadata r) = Some "" ->
      get_namespace r = DEFAULT_K8S_NAMESPACE).
Proof.
  intros Hdef. unfold_get_namespace. split; [|split].
  - destruct (namespace (metadata r)) as [ns|]; [|exact Hdef].
    destruct (String.eqb ns "") eqn:E; [exact Hdef | apply String.eqb_neq, E].
  - intros ns -> Hns. apply String.eqb_neq in Hns. rewrite Hns. reflexivity.
  - intros [->| ->]; reflexivity.
Qed.

Lemma label_item_plain (kv : string * string) :
  negb (contains_char ","%char (fst kv))
  && negb (contains_char "="%char (fst kv))
  && negb (contains_char ","%char (snd kv)) = true ->
  contains_char ","%char (label_item kv) = false /\ label_item kv <> "".
Proof.
  intros H. apply andb_true_iff in H. destruct H as [H Hv].
  apply andb_true_iff in H. destruct H as [Hk _].
  apply negb_true_iff in Hk, Hv. unfold label_item. split.
  - rewrite contains_char_app, Hk. cbn. exact Hv.
  - apply append_nonempty. discriminate.
Qed.

Lemma label_items_plain (ls : list (string * string)) :
  plain_labels ls = true ->
  Forall (fun i => contains_char ","%char i = false /\ i <> "")
    (map label_item ls).
Proof.
  unfold plain_labels. induction ls as [|kv ls IH]; cbn; intros H;
    [constructor|].
  apply andb_true_iff in H. destruct H as [H1 H2].
  constructor; [apply label_item_plain, H1 | apply IH, H2].
Qed.

Lemma label_items_inj (ls : list (string * string)) :
  forall ls' : list (string * string),
    plain_labels ls = true -> plain_labels ls' = true ->
    map label_item ls = map label_item ls' -> ls = ls'.
Proof.
  unfold plain_labels.
  induction ls as [|[k v] ls IH]; intros [|[k' v'] ls'] H H' E; cbn in *;
    try discriminate; [reflexivity|].
  apply andb_true_iff in H, H'. destruct H as [H1 H2], H' as [H1' H2'].
  injection E as E1 E2.
  apply andb_true_iff in H1, H1'. destruct H1 as [H1 _], H1' as [H1' _].
  apply andb_true_iff in H1, H1'. destruct H1 as [_ Hk], H1' as [_ Hk'].
  apply negb_true_iff in Hk, Hk'.
  unfold label_item in E1. cbn in E1.
  destruct (append_sep_inj "="%char k k' v v' Hk Hk' E1) as [-> ->].
  f_equal. apply IH; assumption.
Qed.

Lemma selector_empty_iff_no_labels (r : K8sResource Client) :
  get_label_selector r = "" <-> labels (metadata r) = [].
Proof.
  unfold get_label_selector.
  destruct (labels (metadata r)) as [|[k v] ls]; [tauto|].
  split; [|discriminate].
  intros E. exfalso.
  destruct ls; cbn [map String.concat] in E;
    revert E; unfold label_item; cbn [fst snd];
    apply append_nonempty; discriminate.
Qed.

(** X16. [get_label_selector] is the empty string exactly when the
    resource has no labels: one label, even with an empty key and an
    empty value, gives a selector that is not empty. *)
Theorem label_selector_empty_iff (r : K8sResource Client) :
  get_label_selector r = "" <-> labels (metadata r) = [].
Proof.
  apply selector_empty_iff_no_labels.
Qed.

(** X17. On labels whose keys hold neither [,] nor [=] and whose values
    hold no [,], [get_label_selector] is one-to-one: two resources with
    the same selector have the same labels, in the same order. *)
Theorem label_selector_injective (r r' : K8sResource Client) :
  plain_labels (labels (metadata r)) = true ->
  plain_labels (labels (metadata r')) = true ->
  get_label_selector r = get_label_selector r' ->
  labels (metadata r) = labels (metadata r').
Proof.
  intros H H' E.
  destruct (labels (metadata r)) as [|kv ls] eqn:L,
           (labels (metadata r')) as [|kv' ls'] eqn:L'.
  - reflexivity.
  - exfalso.
    rewrite (proj2 (selector_empty_iff_no_labels r) L) in E.
    symmetry in E. apply selector_empty_iff_no_labels in E.
    rewrite L' in E. discriminate.
  - exfalso.
    rewrite (proj2 (selector_empty_iff_no_labels r') L') in E.
    apply selector_empty_iff_no_labels in E.
    rewrite L in E. discriminate.
  - unfold get_label_selector in E. rewrite L, L' in E.
    apply label_items_inj; [exact H | exact H' |].
    apply (concat_sep_inj ","%char);
      [apply label_items_plain, H | apply label_items_plain, H' | exact E].
Qed.

End NamingFacts.

(** * The further properties on the small cluster *)

Lemma live_spec_keeps_configuration :
  kind_keeps_configuration Demo.save Demo.save Demo.live_spec.
Proof.
  unfold kind_keeps_configuration, impl_keeps_configuration.
  repeat match goal with |- _ /\ _ => split end.
  all: try (intros f E cl s;
            first [ discriminate E
                  | injection E as <-; destruct s as [r [o|]]; cbn;
                    apply same_configuration_refl ]).
  all: intros s; apply same_configuration_refl.
Qed.

Lemma update_delete_always_probe_witness :
  let st := Demo.state false true (Some 3) in
  let done := run tt Demo.save Demo.save Demo.live_spec Op_update None st in
  calls M_read (events done) = 1
  /\ active_resource (self (final done)) = PObj 3.
Proof.
  intros st done.
  pose proof (update_delete_always_probe tt Demo.save Demo.save Demo.live_spec
                Op_update None st) as H.
  cbn in H. destruct H as [_ N]; [discriminate | reflexivity |].
  split; [exact N | reflexivity].
Defined.

Lemma truthy_result_is_True_witness :
  result (run tt Demo.save Demo.save Demo.live_spec Op_delete None
            (Demo.state false false (Some 3))) = PBool true.
Proof.
  apply (truthy_result_is_True tt Demo.save Demo.save Demo.live_spec
           Op_delete None (Demo.state false false (Some 3))).
  reflexivity.
Defined.

Lemma update_delete_failure_reported_witness :
  let st := Demo.state false true (Some 3) in
  let attempt := run tt Demo.save Demo.save Demo.silent_spec Op_update None st in
  result attempt = PNone
  /\ resource_updated (self (final attempt)) = PNone
  /\ In (LogError Failed_to_update) (events attempt)
  /\ calls M_post_update (events attempt) = 0
  /\ calls M_save_output_file (events attempt) = 0.
Proof.
  intros st attempt.
  apply (update_delete_failure_reported tt Demo.save Demo.save Demo.silent_spec
           Op_update None tt st PNone);
    [discriminate | reflexivity | reflexivity | reflexivity | reflexivity].
Defined.

Lemma failing_hook_fails_operation_witness :
  let attempt :=
    run tt Demo.save Demo.save Demo.failing_hook_spec Op_create None
      (Demo.state false true None) in
  cluster (final attempt) = Some 7
  /\ result attempt = PBool false
  /\ In (Call M_create) (events attempt)
  /\ ~ In (LogError Failed_to_create) (events attempt).
Proof.
  intros attempt. split; [reflexivity|].
  apply (failing_hook_fails_operation tt Demo.save Demo.save
           Demo.failing_hook_spec Op_create (fun _ st => (false, st)) None
           (Demo.state false true None));
    [reflexivity | reflexivity | cbn; tauto].
Defined.

Lemma read_skipped_witness :
  read tt Demo.live_spec None Demo.unread_state
  = (PBool true, Demo.unread_state, [PrintInfo Skipping_read])
  /\ calls M_read (events (is_active Demo.live_spec tt Demo.unread_state)) = 1.
Proof.
  apply (read_skipped tt Demo.live_spec None tt Demo.unread_state);
    [reflexivity | right; reflexivity].
Defined.

Lemma client_built_once_witness :
  let st := Demo.state false true None in
  let first := get_k8s_client tt st in
  get_k8s_client tt (final first) = (tt, final first, [])
  /\ k8s_client (self st) = None.
Proof.
  intros st first.
  destruct (client_built_once tt Demo.save Demo.save Demo.live_spec)
    as [memo built].
  split; [apply (memo st)|].
  apply (built Op_create None st). cbn. tauto.
Defined.

Lemma read_does_not_fill_cache_witness :
  let st := Demo.state false true (Some 3) in
  let first := read tt Demo.live_spec None st in
  result first = PObj 3
  /\ active_resource (self (final first)) = PNone
  /\ calls M_read (events (read tt Demo.live_spec None (final first))) = 1.
Proof.
  intros st first.
  destruct (read_does_not_fill_cache tt Demo.live_spec None None st)
    as [kept again].
  { intros f [= <-] cl s. destruct s as [r [o|]]; reflexivity. }
  split; [reflexivity|]. split.
  - fold first in kept.
    change (active_resource (base (self (final first))) = PNone).
    rewrite kept. reflexivity.
  - apply again; reflexivity.
Defined.

Lemma delete_leaves_stale_cache_witness :
  let st := Demo.state false true (Some 3) in
  let st' := final (delete tt Demo.save Demo.live_spec None st) in
  cluster st' = None
  /\ result (delete tt Demo.save Demo.live_spec None st) = PBool true
  /\ read tt Demo.live_spec None st' = (PObj 3, st', []).
Proof.
  intros st st'. split; [reflexivity|].
  destruct (delete_leaves_stale_cache tt Demo.save Demo.live_spec
              (fun _ s => match cluster s with
                          | Some o => (PObj o, s)
                          | None => (PNone, s)
                          end)
              (fun _ s => (PBool true, mkState (self s) None))
              None st eq_refl) as (R & _ & stale).
  - intros cl s. destruct s as [r [o|]]; reflexivity.
  - reflexivity.
  - intros cl s. cbn. auto.
  - reflexivity.
  - reflexivity.
  - reflexivity.
  - reflexivity.
  - reflexivity.
  - split; [exact R | apply stale].
Defined.

Lemma operations_keep_configuration_witness :
  let st := Demo.state false true None in
  same_configuration (self st)
    (self (final (run tt Demo.save Demo.save Demo.live_spec Op_create None st))).
Proof.
  intros st.
  apply (operations_keep_configuration tt Demo.save Demo.save Demo.live_spec
           live_spec_keeps_configuration None st).
Defined.

Lemma manifest_ignores_lifecycle_state_witness :
  get_k8s_manifest_dict Demo.dump_client (Demo.resource true false)
  = get_k8s_manifest_dict Demo.dump_client (Demo.resource false true).
Proof.
  apply (manifest_ignores_lifecycle_state Demo.dump_client
           (Demo.resource false true) (Demo.resource true false)).
  - unfold same_declared. cbn. auto 20.
  - cbn. intros k [<-|[<-|[]]]; intuition discriminate.
Defined.

Lemma manifest_stable_under_operations_witness :
  let st := Demo.state false true None in
  get_k8s_manifest_dict Demo.dump_client
    (self (final (run tt Demo.save Demo.save Demo.live_spec Op_create None st)))
  = get_k8s_manifest_dict Demo.dump_client (self st).
Proof.
  intros st.
  apply (manifest_stable_under_operations tt Demo.save Demo.save
           Demo.live_spec Demo.dump_client Op_create None st
           live_spec_keeps_configuration).
  cbn. intros k [<-|[<-|[]]]; intuition discriminate.
Defined.

Lemma resource_name_never_empty_witness :
  get_resource_name (Some "") "Deployment" (Demo.resource false true) = "n"
  /\ get_resource_name (Some "") "Deployment" (Demo.resource false true) <> "".
Proof.
  destruct (resource_name_never_empty (Some "") "Deployment"
              (Demo.resource false true)) as (N & _ & F); [discriminate|].
  split; [apply F; right; reflexivity | exact N].
Defined.

Lemma namespace_never_empty_witness :
  get_namespace "default" (Demo.labelled []) = "default"
  /\ get_namespace "default" (Demo.labelled []) <> "".
Proof.
  destruct (namespace_never_empty "default" (Demo.labelled []))
    as (N & _ & F); [discriminate|].
  split; [apply F; right; reflexivity | exact N].
Defined.

Lemma label_selector_injective_witness :
  get_label_selector (Demo.labelled [("app", "web"); ("tier", "db")])
  = "app=web,tier=db"
  /\ labels (metadata (Demo.labelled [("app", "web"); ("tier", "db")]))
     = labels
         (metadata
            (with_k8s_client (Some tt)
               (Demo.labelled [("app", "web"); ("tier", "db")]))).
Proof.
  split; [reflexivity|].
  apply (label_selector_injective
           (Demo.labelled [("app", "web"); ("tier", "db")])
           (with_k8s_client (Some tt)
              (Demo.labelled [("app", "web"); ("tier", "db")])));
    reflexivity.
Defined.
